(** * knitbackend: the task-management API of [index.js]

    A shallow embedding of the Express handlers of [src/index.js] and of the
    SQLite tables they read and write, with the properties of the
    specification stated over it.

    - Every route handler is a function from the database (and the
      per-request inputs: decoded token, route parameter, body, clock) to a
      response and the database after the request.
    - [bcrypt], [jsonwebtoken] and SQLite's conversion of a text parameter
      compared with an INTEGER column are external; they are parameters of
      the development ([Section Server]), with the round-trip laws they are
      documented to satisfy as section hypotheses.  [Module Toy] gives a
      small executable instance of them on which the handlers run.
    - Request-body fields are the JSON values the API documents for them: a
      string, [null], or absent.  The password, the one field that goes to a
      library that checks its type, is also taken as an arbitrary JSON value:
      [signup_json] and [login_json] are the two handlers with their
      try/catch, answering 500 'Server error' when bcrypt rejects it, and
      they are [signup] and [login] when it is a string.  Storage failures
      other than a UNIQUE violation are not modelled: the database is in
      memory. *)

From Stdlib Require Import ZArith String Ascii List Bool Lia.
From Stdlib Require Import Permutation Sorted.
From Stdlib Require QArith_base.
Import ListNotations.

Open Scope Z_scope.
Open Scope string_scope.

(** ** JavaScript values *)

(** The values the handlers put into response bodies.  [JTime t] is the
    'YYYY-MM-DD HH:MM:SS' text SQLite renders for the instant [t] (seconds). *)
#[warnings="-register-all"]
Inductive Json : Type :=
| JUndefined
| JNull
| JNum (z : Z)
| JStr (s : string)
| JTime (t : Z)
| JArr (items : list Json)
| JObj (members : list (string * Json)).

(** [obj[k]] on an object literal. *)
Fixpoint assoc (k : string) (members : list (string * Json)) : option Json :=
  match members with
  | [] => None
  | (k', v) :: rest => if String.eqb k' k then Some v else assoc k rest
  end.

Definition get (k : string) (j : Json) : Json :=
  match j with
  | JObj members => match assoc k members with Some v => v | None => JUndefined end
  | _ => JUndefined
  end.

Definition keys (j : Json) : list string :=
  match j with
  | JObj members => map fst members
  | _ => []
  end.

(** Does a member named [k] occur anywhere inside [j]? *)
Fixpoint has_key (k : string) (j : Json) : bool :=
  match j with
  | JArr items => existsb (has_key k) items
  | JObj members =>
      existsb (fun kv : string * Json =>
                 let (k', v) := kv in String.eqb k' k || has_key k v) members
  | _ => false
  end.

(** A field of [req.body] after destructuring. *)
Inductive Field : Type :=
| Undefined
| Null
| Str (s : string).

(** JavaScript truthiness, as used by [!x], [x || y] and [if (x)]. *)
Definition truthy (f : Field) : bool :=
  match f with
  | Str s => negb (String.eqb s "")
  | _ => false
  end.

(** The string bound to a SQL parameter for a field that passed [truthy]. *)
Definition text (f : Field) : string :=
  match f with
  | Str s => s
  | _ => ""
  end.

(** What [res.status(code).json(value)] sends. *)
Record Response : Type := { res_status : Z; res_json : Json }.

Definition error (code : Z) (msg : string) : Response :=
  {| res_status := code; res_json := JObj [("error", JStr msg)] |}.

(** ** [String.prototype.split] with a one-character separator *)

Fixpoint split (sep : ascii) (s : string) : list string :=
  match s with
  | EmptyString => [EmptyString]
  | String c rest =>
      if Ascii.eqb c sep then EmptyString :: split sep rest
      else match split sep rest with
           | seg :: segs => String c seg :: segs
           | [] => [String c EmptyString]
           end
  end.

Definition space : ascii := " "%char.

(** [s] contains no occurrence of [c]. *)
Fixpoint lacks (c : ascii) (s : string) : bool :=
  match s with
  | EmptyString => true
  | String c' rest => negb (Ascii.eqb c' c) && lacks c rest
  end.

(** The text from the start of [s] up to the first [c] (all of [s] if none). *)
Fixpoint upto (c : ascii) (s : string) : string :=
  match s with
  | EmptyString => EmptyString
  | String c' rest => if Ascii.eqb c' c then EmptyString else String c' (upto c rest)
  end.

(** The text after the first [c] of [s], if there is one. *)
Fixpoint after (c : ascii) (s : string) : option string :=
  match s with
  | EmptyString => None
  | String c' rest => if Ascii.eqb c' c then Some rest else after c rest
  end.

(** The wording of the session guard's description: the substring between
    the first and the second space of the header. *)
Definition between_first_and_second_space (h : string) : option string :=
  match after space h with
  | Some rest => Some (upto space rest)
  | None => None
  end.

(** ** Tokens *)

(** The decoded payload of a token, [req.user] in the handlers. *)
Record Claims : Type := { c_id : Z; c_email : string; c_iat : Z; c_exp : Z }.

(** The payload as the JSON object jsonwebtoken serialises. *)
Definition claims_json (c : Claims) : Json :=
  JObj [("id", JNum (c_id c)); ("email", JStr (c_email c));
        ("iat", JNum (c_iat c)); ("exp", JNum (c_exp c))].

Definition JWT_SECRET : string := "your-secret-key-change-in-production".
Definition PORT : Z := 3000.

(** ['24h'] as jsonwebtoken reads it (through [ms]): seconds. *)
Definition expiresIn_24h : Z := 24 * 60 * 60.

(** ** The database *)

Record User : Type :=
  { u_id : Z; u_email : string; u_password : string; u_name : string;
    u_created_at : Z }.

Record Task : Type :=
  { t_id : Z; t_user_id : Z; t_title : string; t_description : option string;
    t_status : string; t_created_at : Z; t_updated_at : Z }.

(** Two tables in rowid order, and the AUTOINCREMENT counters of
    [sqlite_sequence]. *)
Record DB : Type :=
  { users : list User; users_seq : Z; tasks : list Task; tasks_seq : Z }.

Definition empty_db : DB :=
  {| users := []; users_seq := 0; tasks := []; tasks_seq := 0 |}.

(** [req.body]: a free-form object of which the handlers read these members. *)
Record Body : Type :=
  { email : Field; password : Field; name : Field;
    title : Field; description : Field; status : Field }.

Definition no_fields : Body :=
  {| email := Undefined; password := Undefined; name := Undefined;
     title := Undefined; description := Undefined; status := Undefined |}.

(** *** Rows as the objects sqlite3 hands to the callbacks *)

Definition nullable (v : option string) : Json :=
  match v with
  | Some s => JStr s
  | None => JNull
  end.

(** [SELECT * FROM tasks] *)
Definition task_row (t : Task) : Json :=
  JObj [("id", JNum (t_id t)); ("user_id", JNum (t_user_id t));
        ("title", JStr (t_title t)); ("description", nullable (t_description t));
        ("status", JStr (t_status t)); ("created_at", JTime (t_created_at t));
        ("updated_at", JTime (t_updated_at t))].

(** [SELECT id, email, name, created_at FROM users] *)
Definition profile_row (u : User) : Json :=
  JObj [("id", JNum (u_id u)); ("email", JStr (u_email u));
        ("name", JStr (u_name u)); ("created_at", JTime (u_created_at u))].

(** The row a [db.get] callback receives: [undefined] when nothing matched. *)
Definition row_or_undefined {A : Type} (render : A -> Json) (r : option A) : Json :=
  match r with
  | Some x => render x
  | None => JUndefined
  end.

(** *** AUTOINCREMENT *)

Definition max_id (ids : list Z) : Z := fold_right Z.max 0 ids.

(** [this.lastID] after an INSERT: one more than the largest rowid ever used. *)
Definition lastID (seq : Z) (ids : list Z) : Z := Z.max seq (max_id ids) + 1.

(** *** ORDER BY created_at DESC

    SQL leaves the order of rows with equal [created_at] open; here they keep
    the order of the table scan. *)

Fixpoint insert_desc (t : Task) (l : list Task) : list Task :=
  match l with
  | [] => [t]
  | x :: rest =>
      if t_created_at t >=? t_created_at x then t :: l else x :: insert_desc t rest
  end.

Definition order_by_created_at_desc (l : list Task) : list Task :=
  fold_right insert_desc [] l.

(** *** UNIQUE(email) *)

Definition email_taken (e : string) (l : list User) : bool :=
  existsb (fun u => String.eqb (u_email u) e) l.

(** An UPDATE of the row [uid] to the e-mail [e] collides with another row. *)
Definition email_collides (uid : Z) (e : string) (l : list User) : bool :=
  existsb (fun u => Z.eqb (u_id u) uid) l
  && existsb (fun u => negb (Z.eqb (u_id u) uid) && String.eqb (u_email u) e) l.

(** ** Process start *)

(** [process.env]. *)
Definition Env : Type := string -> option string.

Record Server : Type := { srv_secret : string; srv_port : Z; srv_db : DB }.

(** The top level of [index.js] up to [app.listen]: it reads nothing from the
    environment and has no failing path. *)
Definition start (env : Env) : option Server :=
  Some {| srv_secret := JWT_SECRET; srv_port := PORT; srv_db := empty_db |}.

(** ** The server *)

Section Server.

(** [bcrypt.hash(data, 10)], as a function of the salt it draws, and
    [bcrypt.compare(data, hash)]. *)
Variable bcrypt_hash : string -> string -> string.
Variable bcrypt_compare : string -> string -> bool.

(** jsonwebtoken's compact serialisation of a payload signed under a key,
    and its inverse, which fails unless the signature matches the key. *)
Variable jwt_encode : Claims -> string -> string.
Variable jwt_decode : string -> string -> option Claims.

(** The integer SQLite compares with an INTEGER column when the bound
    parameter is this text ([None]: the text is not an integer literal and
    equals no integer). *)
Variable text_as_integer : string -> option Z.

Hypothesis bcrypt_compare_hash :
  forall data salt, bcrypt_compare data (bcrypt_hash data salt) = true.
Hypothesis jwt_decode_encode :
  forall c key, jwt_decode (jwt_encode c key) key = Some c.

(** [jwt.sign({ id, email }, key, { expiresIn })] at clock [now]: the
    library stamps [iat] and [exp = iat + expiresIn]. *)
Definition jwt_sign (id : Z) (mail key : string) (expiresIn now : Z) : string :=
  jwt_encode {| c_id := id; c_email := mail; c_iat := now; c_exp := now + expiresIn |} key.

(** [jwt.verify(token, key)] at clock [now]: [None] is the [err] of the
    callback (bad signature, malformed, or [now >= exp]). *)
Definition jwt_verify (token key : string) (now : Z) : option Claims :=
  match jwt_decode token key with
  | Some c => if now >=? c_exp c then None else Some c
  | None => None
  end.

(** *** Authentication middleware *)

Inductive Guard : Type :=
| Reject (res : Response)
| Next (user : Claims).

(** [authHeader && authHeader.split(' ')[1]] *)
Definition bearer (authHeader : option string) : Field :=
  match authHeader with
  | None => Undefined
  | Some h =>
      if String.eqb h "" then Str ""
      else match nth_error (split space h) 1 with
           | Some seg => Str seg
           | None => Undefined
           end
  end.

Definition authenticateToken (now : Z) (authHeader : option string) : Guard :=
  let token := bearer authHeader in
  if negb (truthy token) then Reject (error 401 "Access token required")
  else match jwt_verify (text token) JWT_SECRET now with
       | None => Reject (error 403 "Invalid or expired token")
       | Some user => Next user
       end.

(** The guard as its description words it: it acts on the text between
    the first and the second space of the header and on nothing else. *)
Definition guard_by_segment (now : Z) (segment : option string) : Guard :=
  match segment with
  | None => Reject (error 401 "Access token required")
  | Some token =>
      if String.eqb token "" then Reject (error 401 "Access token required")
      else match jwt_verify token JWT_SECRET now with
           | None => Reject (error 403 "Invalid or expired token")
           | Some user => Next user
           end
  end.

(** *** User routes *)

(** The signup handler for a password that is a string ([bcrypt.hash]
    resolves); [signup_json] below is the handler with its try/catch, for a
    password of any JSON type. *)
Definition signup (db : DB) (b : Body) (salt : string) (now : Z) : Response * DB :=
  if negb (truthy (email b)) || negb (truthy (password b)) || negb (truthy (name b))
  then (error 400 "Email, password, and name are required", db)
  else
    let hashedPassword := bcrypt_hash (text (password b)) salt in
    if email_taken (text (email b)) (users db)
    then (error 409 "Email already exists", db)
    else
      let id := lastID (users_seq db) (map u_id (users db)) in
      let token := jwt_sign id (text (email b)) JWT_SECRET expiresIn_24h now in
      ({| res_status := 201;
          res_json :=
            JObj [("message", JStr "User created successfully");
                  ("token", JStr token);
                  ("user", JObj [("id", JNum id);
                                 ("email", JStr (text (email b)));
                                 ("name", JStr (text (name b)))])] |},
       {| users := users db
                   ++ [{| u_id := id; u_email := text (email b);
                          u_password := hashedPassword; u_name := text (name b);
                          u_created_at := now |}];
          users_seq := id;
          tasks := tasks db; tasks_seq := tasks_seq db |}).

(** The login handler for a password that is a string ([bcrypt.compare]
    resolves); [login_json] below is the handler with its try/catch. *)
Definition login (db : DB) (b : Body) (now : Z) : Response * DB :=
  if negb (truthy (email b)) || negb (truthy (password b))
  then (error 400 "Email and password are required", db)
  else
    match find (fun u => String.eqb (u_email u) (text (email b))) (users db) with
    | None => (error 401 "Invalid credentials", db)
    | Some user =>
        let validPassword := bcrypt_compare (text (password b)) (u_password user) in
        if negb validPassword then (error 401 "Invalid credentials", db)
        else
          let token := jwt_sign (u_id user) (u_email user) JWT_SECRET expiresIn_24h now in
          ({| res_status := 200;
              res_json :=
                JObj [("message", JStr "Login successful");
                      ("token", JStr token);
                      ("user", JObj [("id", JNum (u_id user));
                                     ("email", JStr (u_email user));
                                     ("name", JStr (u_name user))])] |},
           db)
    end.

Definition getProfile (db : DB) (user : Claims) : Response * DB :=
  match find (fun u => Z.eqb (u_id u) (c_id user)) (users db) with
  | None => (error 404 "User not found", db)
  | Some row =>
      ({| res_status := 200; res_json := JObj [("user", profile_row row)] |}, db)
  end.

(** The SET clause [updateProfile] builds from the body. *)
Definition set_user (b : Body) (u : User) : User :=
  {| u_id := u_id u;
     u_email := if truthy (email b) then text (email b) else u_email u;
     u_password := u_password u;
     u_name := if truthy (name b) then text (name b) else u_name u;
     u_created_at := u_created_at u |}.

Definition updateProfile (db : DB) (user : Claims) (b : Body) : Response * DB :=
  if negb (truthy (name b)) && negb (truthy (email b))
  then (error 400 "At least one field (name or email) is required", db)
  else if truthy (email b) && email_collides (c_id user) (text (email b)) (users db)
  then (error 409 "Email already exists", db)
  else
    let users' :=
      map (fun u => if Z.eqb (u_id u) (c_id user) then set_user b u else u) (users db) in
    ({| res_status := 200;
        res_json :=
          JObj [("message", JStr "Profile updated successfully");
                ("user", row_or_undefined profile_row
                           (find (fun u => Z.eqb (u_id u) (c_id user)) users'))] |},
     {| users := users'; users_seq := users_seq db;
        tasks := tasks db; tasks_seq := tasks_seq db |}).

(** *** Task routes *)

Definition createTask (db : DB) (user : Claims) (b : Body) (now : Z) : Response * DB :=
  if negb (truthy (title b)) then (error 400 "Title is required", db)
  else
    let id := lastID (tasks_seq db) (map t_id (tasks db)) in
    let tasks' :=
      (tasks db
       ++ [{| t_id := id; t_user_id := c_id user; t_title := text (title b);
              t_description :=
                if truthy (description b) then Some (text (description b)) else None;
              t_status := if truthy (status b) then text (status b) else "pending";
              t_created_at := now; t_updated_at := now |}])%list in
    ({| res_status := 201;
        res_json :=
          JObj [("message", JStr "Task created successfully");
                ("task", row_or_undefined task_row
                           (find (fun t => Z.eqb (t_id t) id) tasks'))] |},
     {| users := users db; users_seq := users_seq db;
        tasks := tasks'; tasks_seq := id |}).

Definition listTasks (db : DB) (user : Claims) : Response * DB :=
  ({| res_status := 200;
      res_json :=
        JObj [("tasks",
               JArr (map task_row
                       (order_by_created_at_desc
                          (filter (fun t => Z.eqb (t_user_id t) (c_id user))
                                  (tasks db)))))] |},
   db).

(** [id = ?] with the route parameter bound as text. *)
Definition id_is (param : string) (id : Z) : bool :=
  match text_as_integer param with
  | Some z => Z.eqb id z
  | None => false
  end.

(** [WHERE id = ? AND user_id = ?] with [[req.params.id, req.user.id]]. *)
Definition owned (param : string) (user : Claims) (t : Task) : bool :=
  id_is param (t_id t) && Z.eqb (t_user_id t) (c_id user).

Definition getTask (db : DB) (user : Claims) (param : string) : Response * DB :=
  match find (owned param user) (tasks db) with
  | None => (error 404 "Task not found", db)
  | Some task =>
      ({| res_status := 200; res_json := JObj [("task", task_row task)] |}, db)
  end.

(** The SET clause [updateTask] builds from the body, [updated_at] last. *)
Definition set_task (b : Body) (now : Z) (t : Task) : Task :=
  {| t_id := t_id t;
     t_user_id := t_user_id t;
     t_title := if truthy (title b) then text (title b) else t_title t;
     t_description :=
       match description b with
       | Undefined => t_description t
       | Null => None
       | Str s => Some s
       end;
     t_status := if truthy (status b) then text (status b) else t_status t;
     t_created_at := t_created_at t;
     t_updated_at := now |}.

Definition updateTask (db : DB) (user : Claims) (param : string) (b : Body) (now : Z)
  : Response * DB :=
  if negb (truthy (title b)) && negb (truthy (description b)) && negb (truthy (status b))
  then (error 400 "At least one field is required", db)
  else
    let changes := length (filter (owned param user) (tasks db)) in
    let tasks' :=
      map (fun t => if owned param user t then set_task b now t else t) (tasks db) in
    let db' := {| users := users db; users_seq := users_seq db;
                  tasks := tasks'; tasks_seq := tasks_seq db |} in
    if Nat.eqb changes 0 then (error 404 "Task not found", db')
    else
      ({| res_status := 200;
          res_json :=
            JObj [("message", JStr "Task updated successfully");
                  ("task", row_or_undefined task_row
                             (find (fun t => id_is param (t_id t)) tasks'))] |},
       db').

Definition deleteTask (db : DB) (user : Claims) (param : string) : Response * DB :=
  let changes := length (filter (owned param user) (tasks db)) in
  let db' := {| users := users db; users_seq := users_seq db;
                tasks := filter (fun t => negb (owned param user t)) (tasks db);
                tasks_seq := tasks_seq db |} in
  if Nat.eqb changes 0 then (error 404 "Task not found", db')
  else
    ({| res_status := 200;
        res_json := JObj [("message", JStr "Task deleted successfully")] |},
     db').

(** *** Routing *)

Inductive Request : Type :=
| PostSignup (b : Body) (salt : string)
| PostLogin (b : Body)
| GetProfile (authorization : option string)
| PutProfile (authorization : option string) (b : Body)
| PostTasks (authorization : option string) (b : Body)
| GetTasks (authorization : option string)
| GetTask (authorization : option string) (param : string)
| PutTask (authorization : option string) (param : string) (b : Body)
| DeleteTask (authorization : option string) (param : string).

(** A route registered with [authenticateToken] in front of its handler. *)
Definition guarded (now : Z) (authorization : option string) (db : DB)
           (handler : Claims -> Response * DB) : Response * DB :=
  match authenticateToken now authorization with
  | Reject res => (res, db)
  | Next user => handler user
  end.

Definition handle (now : Z) (db : DB) (req : Request) : Response * DB :=
  match req with
  | PostSignup b salt => signup db b salt now
  | PostLogin b => login db b now
  | GetProfile a => guarded now a db (fun user => getProfile db user)
  | PutProfile a b => guarded now a db (fun user => updateProfile db user b)
  | PostTasks a b => guarded now a db (fun user => createTask db user b now)
  | GetTasks a => guarded now a db (fun user => listTasks db user)
  | GetTask a p => guarded now a db (fun user => getTask db user p)
  | PutTask a p b => guarded now a db (fun user => updateTask db user p b now)
  | DeleteTask a p => guarded now a db (fun user => deleteTask db user p)
  end.

(** The database after a sequence of requests, each with its clock reading. *)
Fixpoint run (db : DB) (reqs : list (Z * Request)) : DB :=
  match reqs with
  | [] => db
  | (now, req) :: rest => run (snd (handle now db req)) rest
  end.

End Server.

(** ** A password of any JSON type *)

(** A JSON value as [express.json()] hands it over ([VUndefined]: the member
    is absent). *)
Inductive Value : Type :=
| VUndefined
| VNull
| VBool (b : bool)
| VNum (q : QArith_base.Q)
| VStr (s : string)
| VArr (items : list Json)
| VObj (members : list (string * Json)).

(** JavaScript truthiness of a JSON value. *)
Definition truthy_value (v : Value) : bool :=
  match v with
  | VUndefined | VNull => false
  | VBool b => b
  | VNum q => negb (Z.eqb (QArith_base.Qnum q) 0)
  | VStr s => negb (String.eqb s "")
  | VArr _ | VObj _ => true
  end.

(** [typeof v === 'string'], the test bcrypt applies to its data. *)
Definition is_string (v : Value) : bool :=
  match v with
  | VStr _ => true
  | _ => false
  end.

(** The body with its [password] member replaced. *)
Definition set_password (b : Body) (p : Field) : Body :=
  {| email := email b; password := p; name := name b;
     title := title b; description := description b; status := status b |}.

Section Json.

Variable bcrypt_hash : string -> string -> string.
Variable bcrypt_compare : string -> string -> bool.
Variable jwt_encode : Claims -> string -> string.
Variable jwt_decode : string -> string -> option Claims.
Variable text_as_integer : string -> option Z.

(** [POST /api/auth/signup] with the [password] member of the body any JSON
    value: after the presence check, [await bcrypt.hash(password, 10)] either
    resolves, for a string, and the handler goes on as [signup], or rejects
    and the [catch] answers 500. *)
Definition signup_json (db : DB) (b : Body) (pw : Value) (salt : string) (now : Z)
  : Response * DB :=
  if negb (truthy (email b)) || negb (truthy_value pw) || negb (truthy (name b))
  then (error 400 "Email, password, and name are required", db)
  else match pw with
       | VStr s => signup bcrypt_hash jwt_encode db (set_password b (Str s)) salt now
       | _ => (error 500 "Server error", db)
       end.

(** [POST /api/auth/login] likewise: the row is looked up first, then
    [await bcrypt.compare(password, user.password)] resolves for a string or
    rejects into the [catch]. *)
Definition login_json (db : DB) (b : Body) (pw : Value) (now : Z) : Response * DB :=
  if negb (truthy (email b)) || negb (truthy_value pw)
  then (error 400 "Email and password are required", db)
  else
    match find (fun u => String.eqb (u_email u) (text (email b))) (users db) with
    | None => (error 401 "Invalid credentials", db)
    | Some user =>
        match pw with
        | VStr s => login bcrypt_compare jwt_encode db (set_password b (Str s)) now
        | _ => (error 500 "Server error", db)
        end
    end.

Inductive JsonRequest : Type :=
| JsonSignup (b : Body) (pw : Value) (salt : string)
| JsonLogin (b : Body) (pw : Value)
| Typed (req : Request).

Definition handle_json (now : Z) (db : DB) (req : JsonRequest) : Response * DB :=
  match req with
  | JsonSignup b pw salt => signup_json db b pw salt now
  | JsonLogin b pw => login_json db b pw now
  | Typed req =>
      handle bcrypt_hash bcrypt_compare jwt_encode jwt_decode text_as_integer now db req
  end.

Fixpoint run_json (db : DB) (reqs : list (Z * JsonRequest)) : DB :=
  match reqs with
  | [] => db
  | (now, req) :: rest => run_json (snd (handle_json now db req)) rest
  end.

(** The string a login request offers as password, if it offers one. *)
Definition login_password (req : JsonRequest) : option string :=
  match req with
  | JsonLogin _ (VStr s) => Some s
  | Typed (PostLogin b) => Some (text (password b))
  | _ => None
  end.

End Json.

(** ** An executable instance of the external libraries

    Not bcrypt and not HS256: the smallest functions with the same interface
    and the same round-trip laws, so that the handlers can be run. *)

Module Toy.

Definition bcrypt_hash (data salt : string) : string := String "$" data.

Definition bcrypt_compare (data hash : string) : bool :=
  String.eqb hash (String "$" data).

(** Binary digits, least significant first, closed by a dot. *)
Fixpoint digits (p : positive) : string :=
  match p with
  | xH => "."
  | xO q => String "0" (digits q)
  | xI q => String "1" (digits q)
  end.

Definition numeral (z : Z) : string :=
  match z with
  | Z0 => "z"
  | Zpos p => String "+" (digits p)
  | Zneg p => String "-" (digits p)
  end.

Fixpoint read_digits (s : string) : option (positive * string) :=
  match s with
  | EmptyString => None
  | String c rest =>
      if Ascii.eqb c "." then Some (xH, rest)
      else if Ascii.eqb c "0" then
        match read_digits rest with
        | Some (q, rest') => Some (xO q, rest')
        | None => None
        end
      else if Ascii.eqb c "1" then
        match read_digits rest with
        | Some (q, rest') => Some (xI q, rest')
        | None => None
        end
      else None
  end.

Definition read_numeral (s : string) : option (Z * string) :=
  match s with
  | EmptyString => None
  | String c rest =>
      if Ascii.eqb c "z" then Some (Z0, rest)
      else if Ascii.eqb c "+" then
        match read_digits rest with
        | Some (p, rest') => Some (Zpos p, rest')
        | None => None
        end
      else if Ascii.eqb c "-" then
        match read_digits rest with
        | Some (p, rest') => Some (Zneg p, rest')
        | None => None
        end
      else None
  end.

Fixpoint strip (key s : string) : option string :=
  match key, s with
  | EmptyString, _ => Some s
  | String k key', String c s' => if Ascii.eqb k c then strip key' s' else None
  | String _ _, EmptyString => None
  end.

Definition jwt_encode (c : Claims) (key : string) : string :=
  key ++ numeral (c_id c) ++ numeral (c_iat c) ++ numeral (c_exp c) ++ c_email c.

Definition jwt_decode (token key : string) : option Claims :=
  match strip key token with
  | None => None
  | Some s1 =>
      match read_numeral s1 with
      | None => None
      | Some (id, s2) =>
          match read_numeral s2 with
          | None => None
          | Some (iat, s3) =>
              match read_numeral s3 with
              | None => None
              | Some (exp, mail) =>
                  Some {| c_id := id; c_email := mail; c_iat := iat; c_exp := exp |}
              end
          end
      end
  end.

(** Unsigned decimal literals only. *)
Fixpoint decimal (acc : Z) (s : string) : option Z :=
  match s with
  | EmptyString => Some acc
  | String c rest =>
      let d := Z.of_nat (nat_of_ascii c) - 48 in
      if Z.leb 0 d && Z.leb d 9 then decimal (10 * acc + d) rest else None
  end.

Definition text_as_integer (s : string) : option Z :=
  if String.eqb s "" then None else decimal 0 s.

Definition handle : Z -> DB -> Request -> Response * DB :=
  handle bcrypt_hash bcrypt_compare jwt_encode jwt_decode text_as_integer.

Definition run : DB -> list (Z * Request) -> DB :=
  run bcrypt_hash bcrypt_compare jwt_encode jwt_decode text_as_integer.

Definition jwt_sign : Z -> string -> string -> Z -> Z -> string := jwt_sign jwt_encode.

Definition body_signup (e p n : string) : Body :=
  {| email := Str e; password := Str p; name := Str n;
     title := Undefined; description := Undefined; status := Undefined |}.

Definition body_task (t : string) : Body :=
  {| email := Undefined; password := Undefined; name := Undefined;
     title := Str t; description := Undefined; status := Undefined |}.

(** The tokens of the two users of the scenario below. *)
Definition T1 : string := jwt_sign 1 "a@x.com" JWT_SECRET expiresIn_24h 100.
Definition T2 : string := jwt_sign 2 "b@x.com" JWT_SECRET expiresIn_24h 102.

(** The scenario of the specification: A signs up and creates a task,
    then B signs up. *)
Definition scenario : list (Z * Request) :=
  [ (100, PostSignup (body_signup "a@x.com" "p1" "A") "salt1");
    (101, PostTasks (Some ("Bearer " ++ T1)) (body_task "buy milk"));
    (102, PostSignup (body_signup "b@x.com" "p2" "B") "salt2") ].

Definition db3 : DB := run empty_db scenario.

Definition userA : Claims :=
  {| c_id := 1; c_email := "a@x.com"; c_iat := 100; c_exp := 100 + expiresIn_24h |}.
Definition userB : Claims :=
  {| c_id := 2; c_email := "b@x.com"; c_iat := 102; c_exp := 102 + expiresIn_24h |}.

(** The task A created in the scenario. *)
Definition task1 : Task :=
  {| t_id := 1; t_user_id := 1; t_title := "buy milk"; t_description := None;
     t_status := "pending"; t_created_at := 101; t_updated_at := 101 |}.

Definition body_login (e p : string) : Body :=
  {| email := Str e; password := Str p; name := Undefined;
     title := Undefined; description := Undefined; status := Undefined |}.

Definition body_name (n : string) : Body :=
  {| email := Undefined; password := Undefined; name := Str n;
     title := Undefined; description := Undefined; status := Undefined |}.

(** Three creations, two of them by A. *)
Definition creations : list (Claims * Body * Z) :=
  [ (userA, body_task "buy milk", 101);
    (userB, body_task "call home", 102);
    (userA, body_task "water plants", 103) ].

(** A's row in the scenario. *)
Definition rowA : User :=
  {| u_id := 1; u_email := "a@x.com"; u_password := "$p1"; u_name := "A";
     u_created_at := 100 |}.

(** An identity no row has. *)
Definition ghost : Claims :=
  {| c_id := 9; c_email := "gone@x.com"; c_iat := 50; c_exp := 50 + expiresIn_24h |}.

Definition body_email (e : string) : Body :=
  {| email := Str e; password := Undefined; name := Undefined;
     title := Undefined; description := Undefined; status := Undefined |}.

(** [{ description: null }] and [{ title, description: null }]. *)
Definition body_only_null : Body :=
  {| email := Undefined; password := Undefined; name := Undefined;
     title := Undefined; description := Null; status := Undefined |}.

Definition body_clear (t : string) : Body :=
  {| email := Undefined; password := Undefined; name := Undefined;
     title := Str t; description := Null; status := Undefined |}.

(** A deletes the task; A renames the profile. *)
Definition after_delete : list (Z * Request) :=
  [ (104, DeleteTask (Some ("Bearer " ++ T1)) "1") ].

Definition rename : list (Z * Request) :=
  [ (104, PutProfile (Some ("Bearer " ++ T1)) (body_name "Ann")) ].

(** The scenario's database with A's stored hash replaced by another. *)
Definition db3_rehashed : DB :=
  {| users := [{| u_id := 1; u_email := "a@x.com"; u_password := "$other";
                  u_name := "A"; u_created_at := 100 |};
               {| u_id := 2; u_email := "b@x.com"; u_password := "$p2";
                  u_name := "B"; u_created_at := 102 |}];
     users_seq := 2;
     tasks := [task1]; tasks_seq := 1 |}.

(** A signup body without its password member. *)
Definition body_account (e n : string) : Body :=
  {| email := Str e; password := Undefined; name := Str n;
     title := Undefined; description := Undefined; status := Undefined |}.

(** 12345 as a JSON number. *)
Definition number_12345 : Value := VNum (QArith_base.Qmake 12345 1).

(** A signs up, then someone tries the same address with a number for a
    password. *)
Definition json_scenario : list (Z * JsonRequest) :=
  [ (100, JsonSignup (body_account "a@x.com" "A") (VStr "p1") "salt1");
    (101, JsonSignup (body_account "a@x.com" "Eve") number_12345 "salt2");
    (102, Typed (PostTasks (Some ("Bearer " ++ T1)) (body_task "buy milk"))) ].

End Toy.

(** ** Vocabulary of the properties *)

(** PRIMARY KEY on both tables: row ids are pairwise distinct. *)
Definition wf (db : DB) : Prop :=
  NoDup (map t_id (tasks db)) /\ NoDup (map u_id (users db)).

(** The body has a member of that name (whatever its value). *)
Definition supplied (f : Field) : bool :=
  match f with
  | Undefined => false
  | _ => true
  end.

(** What a profile update by [uid] with body [b] may change in a user row. *)
Definition user_frame (b : Body) (uid : Z) (u u' : User) : Prop :=
  u_id u' = u_id u /\ u_password u' = u_password u
  /\ u_created_at u' = u_created_at u
  /\ (supplied (email b) = false -> u_email u' = u_email u)
  /\ (supplied (name b) = false -> u_name u' = u_name u)
  /\ (u_id u <> uid -> u' = u).

(** What a task update with body [b] may change in a task row; [hit] tells
    whether the row is the one addressed. *)
Definition task_frame (b : Body) (now : Z) (hit : Task -> bool) (t t' : Task) : Prop :=
  t_id t' = t_id t /\ t_user_id t' = t_user_id t
  /\ t_created_at t' = t_created_at t
  /\ (supplied (title b) = false -> t_title t' = t_title t)
  /\ (supplied (description b) = false -> t_description t' = t_description t)
  /\ (supplied (status b) = false -> t_status t' = t_status t)
  /\ (hit t = true -> t_updated_at t' = now)
  /\ (hit t = false -> t' = t).

(** Newest first, by the [created_at] column. *)
Definition newer_or_same (a b : Task) : Prop := t_created_at a >= t_created_at b.

(** A run of task creations, each by some user at some time. *)
Fixpoint create_all (db : DB) (cs : list (Claims * Body * Z)) : DB :=
  match cs with
  | [] => db
  | (user, b, now) :: rest => create_all (snd (createTask db user b now)) rest
  end.

(** How many of the creations are by the user with id [uid]. *)
Definition created_by (uid : Z) (cs : list (Claims * Body * Z)) : nat :=
  length (filter (fun c : Claims * Body * Z => Z.eqb (c_id (fst (fst c))) uid) cs).

(** UNIQUE on [users.email]. *)
Definition emails_unique (db : DB) : Prop := NoDup (map u_email (users db)).

(** No row has an id above its table's AUTOINCREMENT counter. *)
Definition seq_ok (db : DB) : Prop :=
  Forall (fun t => t_id t <= tasks_seq db) (tasks db)
  /\ Forall (fun u => u_id u <= users_seq db) (users db).

(** No row holds an empty e-mail, name, title or status. *)
Definition nonempty_fields (db : DB) : Prop :=
  Forall (fun u => u_email u <> "" /\ u_name u <> "") (users db)
  /\ Forall (fun t => t_title t <> "" /\ t_status t <> "") (tasks db).

(** Every task was created no later than it was last updated, and that no
    later than [clock]. *)
Definition stamped (clock : Z) (db : DB) : Prop :=
  Forall (fun t => t_created_at t <= t_updated_at t /\ t_updated_at t <= clock)
         (tasks db).

(** The rows [listTasks] selects for a user, in table order. *)
Definition mine (user : Claims) (db : DB) : list Task :=
  filter (fun t => Z.eqb (t_user_id t) (c_id user)) (tasks db).

(** The clock readings of a run never go back, starting from [clock]. *)
Fixpoint clock_monotone (clock : Z) {R : Type} (reqs : list (Z * R)) : Prop :=
  match reqs with
  | [] => True
  | (now, _) :: rest => clock <= now /\ clock_monotone now rest
  end.

(** The clock reading of the last request of a run ([clock] if none). *)
Fixpoint last_clock (clock : Z) {R : Type} (reqs : list (Z * R)) : Z :=
  match reqs with
  | [] => clock
  | (now, _) :: rest => last_clock now rest
  end.

(** The row the INSERT of [createTask] adds. *)
Definition inserted_task (db : DB) (user : Claims) (b : Body) (now : Z) : Task :=
  {| t_id := lastID (tasks_seq db) (map t_id (tasks db));
     t_user_id := c_id user;
     t_title := text (title b);
     t_description :=
       if truthy (description b) then Some (text (description b)) else None;
     t_status := if truthy (status b) then text (status b) else "pending";
     t_created_at := now; t_updated_at := now |}.

(** Two databases that agree on everything but the stored password hashes. *)
Definition same_public (u v : User) : Prop :=
  u_id u = u_id v /\ u_email u = u_email v /\ u_name u = u_name v
  /\ u_created_at u = u_created_at v.

Definition same_but_hashes (db1 db2 : DB) : Prop :=
  Forall2 same_public (users db1) (users db2)
  /\ users_seq db1 = users_seq db2
  /\ tasks db1 = tasks db2 /\ tasks_seq db1 = tasks_seq db2.

(** [compare] gives the same verdict on [data] against the hashes of
    corresponding rows. *)
Definition same_verdicts (compare : string -> string -> bool) (data : string)
           (db1 db2 : DB) : Prop :=
  Forall2 (fun u v => compare data (u_password u) = compare data (u_password v))
          (users db1) (users db2).

(** * Properties *)

(** ** Strings *)

Example split_bearer : split space "Bearer abc.def" = ["Bearer"; "abc.def"].
Proof. reflexivity. Qed.

Example split_two_spaces : split space "Bearer  abc" = ["Bearer"; ""; "abc"].
Proof. reflexivity. Qed.

Example split_empty : split space "" = [""].
Proof. reflexivity. Qed.

Lemma split_unfold (sep : ascii) (s : string) :
  split sep s
  = upto sep s :: match after sep s with
                  | Some rest => split sep rest
                  | None => []
                  end.
Proof.
  induction s as [|c s IH]; simpl; [reflexivity|].
  destruct (Ascii.eqb c sep); [reflexivity|].
  now rewrite IH.
Qed.

Lemma second_segment (h : string) :
  nth_error (split space h) 1 = between_first_and_second_space h.
Proof.
  rewrite split_unfold. unfold between_first_and_second_space. simpl.
  destruct (after space h) as [rest|]; [|reflexivity].
  now rewrite split_unfold.
Qed.

Lemma after_lacks (c : ascii) (s : string) :
  lacks c s = true -> after c s = None.
Proof.
  induction s as [|c' s IH]; simpl; [reflexivity|].
  destruct (Ascii.eqb c' c); simpl; [discriminate|exact IH].
Qed.

Lemma upto_lacks (c : ascii) (s : string) :
  lacks c s = true -> upto c s = s.
Proof.
  induction s as [|c' s IH]; simpl; [reflexivity|].
  destruct (Ascii.eqb c' c); simpl; [discriminate|].
  intros H. now rewrite IH.
Qed.

Lemma after_append (c : ascii) (w rest : string) :
  lacks c w = true -> after c (w ++ String c rest) = Some rest.
Proof.
  induction w as [|c' w IH]; simpl.
  - now rewrite Ascii.eqb_refl.
  - destruct (Ascii.eqb c' c); simpl; [discriminate|exact IH].
Qed.

Lemma upto_append (c : ascii) (w rest : string) :
  lacks c w = true -> upto c (w ++ String c rest) = w.
Proof.
  induction w as [|c' w IH]; simpl.
  - now rewrite Ascii.eqb_refl.
  - destruct (Ascii.eqb c' c); simpl; [discriminate|].
    intros H. now rewrite IH.
Qed.

Lemma eqb_empty_false (s : string) : s <> "" -> String.eqb s "" = false.
Proof. intros H. now apply String.eqb_neq. Qed.

(** ** Lists and tables *)

Section Lists.

Context {A B : Type}.
Implicit Types (f : A -> bool) (l : list A).

Lemma find_all_false f l :
  (forall x, In x l -> f x = false) -> find f l = None.
Proof.
  induction l as [|a l IH]; intros H; simpl; [reflexivity|].
  rewrite (H a (or_introl eq_refl)). apply IH. intros x Hx. apply H. now right.
Qed.

Lemma filter_all_false f l :
  (forall x, In x l -> f x = false) -> filter f l = [].
Proof.
  induction l as [|a l IH]; intros H; simpl; [reflexivity|].
  rewrite (H a (or_introl eq_refl)). apply IH. intros x Hx. apply H. now right.
Qed.

Lemma filter_negb_all_false f l :
  (forall x, In x l -> f x = false) -> filter (fun x => negb (f x)) l = l.
Proof.
  induction l as [|a l IH]; intros H; simpl; [reflexivity|].
  rewrite (H a (or_introl eq_refl)). simpl. f_equal. apply IH.
  intros x Hx. apply H. now right.
Qed.

Lemma map_if_all_false f (g : A -> A) l :
  (forall x, In x l -> f x = false) -> map (fun x => if f x then g x else x) l = l.
Proof.
  induction l as [|a l IH]; intros H; simpl; [reflexivity|].
  rewrite (H a (or_introl eq_refl)). f_equal. apply IH.
  intros x Hx. apply H. now right.
Qed.

Lemma NoDup_map_In_inj (k : A -> B) l x y :
  NoDup (map k l) -> In x l -> In y l -> k x = k y -> x = y.
Proof.
  induction l as [|a l IH]; simpl; intros Hnd Hx Hy E; [contradiction|].
  inversion Hnd as [|? ? Hnotin Hnd']; subst.
  destruct Hx as [<-|Hx], Hy as [<-|Hy].
  - reflexivity.
  - exfalso. apply Hnotin. rewrite E. now apply in_map.
  - exfalso. apply Hnotin. rewrite <- E. now apply in_map.
  - now apply IH.
Qed.

Lemma NoDup_map_filter (k : A -> B) f l :
  NoDup (map k l) -> NoDup (map k (filter f l)).
Proof.
  induction l as [|a l IH]; simpl; intros Hnd; [constructor|].
  inversion Hnd as [|? ? Hnotin Hnd']; subst.
  destruct (f a); simpl; [|now apply IH].
  constructor; [|now apply IH].
  intros Hin. apply Hnotin.
  apply in_map_iff in Hin. destruct Hin as (x & Hk & Hx).
  apply filter_In in Hx. apply in_map_iff. exists x. tauto.
Qed.

End Lists.

Lemma max_id_ge (ids : list Z) (x : Z) : In x ids -> x <= max_id ids.
Proof.
  induction ids as [|a ids IH]; simpl; [contradiction|].
  intros [->|H]; [lia|]. specialize (IH H). lia.
Qed.

Lemma lastID_fresh (seq : Z) (ids : list Z) : ~ In (lastID seq ids) ids.
Proof.
  intros H. apply max_id_ge in H. unfold lastID in H. lia.
Qed.

Lemma db_eta (db : DB) :
  {| users := users db; users_seq := users_seq db;
     tasks := tasks db; tasks_seq := tasks_seq db |} = db.
Proof. now destruct db. Qed.

Lemma wf_empty : wf empty_db.
Proof. split; constructor. Qed.

Lemma NoDup_snoc {A : Type} (l : list A) (x : A) :
  NoDup l -> ~ In x l -> NoDup (l ++ [x]).
Proof.
  induction l as [|a l IH]; simpl; intros Hnd Hx.
  - constructor; [tauto|constructor].
  - inversion Hnd as [|? ? Hnotin Hnd']; subst. constructor.
    + rewrite in_app_iff. simpl. intros [H|[H|[]]]; [tauto|]. apply Hx. now left.
    + apply IH; [assumption|]. intros H. apply Hx. now right.
Qed.

Lemma map_key_if {A K : Type} (k : A -> K) (f : A -> bool) (g : A -> A) (l : list A) :
  (forall x, k (g x) = k x) ->
  map k (map (fun x => if f x then g x else x) l) = map k l.
Proof.
  intros Hg. rewrite map_map. apply map_ext. intros x. now destruct (f x).
Qed.

Lemma Forall2_map_same {A : Type} (R : A -> A -> Prop) (f : A -> A) (l : list A) :
  (forall x, R x (f x)) -> Forall2 R l (map f l).
Proof.
  intros H. induction l as [|a l IH]; simpl; constructor; auto.
Qed.

Lemma supplied_truthy (f : Field) : supplied f = false -> truthy f = false.
Proof. now destruct f. Qed.

(** ** ORDER BY *)

Lemma insert_desc_perm (t : Task) (l : list Task) :
  Permutation (insert_desc t l) (t :: l).
Proof.
  induction l as [|x l IH]; simpl; [reflexivity|].
  destruct (t_created_at t >=? t_created_at x); [reflexivity|].
  rewrite IH. apply perm_swap.
Qed.

Lemma order_by_perm (l : list Task) :
  Permutation (order_by_created_at_desc l) l.
Proof.
  induction l as [|t l IH]; simpl; [reflexivity|].
  rewrite insert_desc_perm. now constructor.
Qed.

Lemma insert_desc_hd (x t : Task) (l : list Task) :
  HdRel newer_or_same x l -> newer_or_same x t ->
  HdRel newer_or_same x (insert_desc t l).
Proof.
  destruct l as [|y l]; simpl; intros Hhd Hxt; [now constructor|].
  destruct (t_created_at t >=? t_created_at y); constructor; [assumption|].
  now apply HdRel_inv in Hhd.
Qed.

Lemma insert_desc_sorted (t : Task) (l : list Task) :
  Sorted newer_or_same l -> Sorted newer_or_same (insert_desc t l).
Proof.
  induction l as [|x l IH]; simpl; intros Hs; [repeat constructor|].
  destruct (t_created_at t >=? t_created_at x) eqn:E.
  - constructor; [assumption|]. constructor. unfold newer_or_same.
    apply Z.geb_le in E. lia.
  - apply Sorted_inv in Hs. destruct Hs as [Hs Hhd].
    constructor; [now apply IH|].
    apply insert_desc_hd; [assumption|]. unfold newer_or_same.
    rewrite Z.geb_leb in E. apply Z.leb_gt in E. lia.
Qed.

Lemma order_by_sorted (l : list Task) :
  StronglySorted newer_or_same (order_by_created_at_desc l).
Proof.
  apply Sorted_StronglySorted.
  - intros a b c. unfold newer_or_same. lia.
  - induction l as [|t l IH]; simpl; [constructor|now apply insert_desc_sorted].
Qed.

(** ** Counting creations *)

Lemma createTask_tasks (db : DB) (user : Claims) (b : Body) (now : Z) :
  truthy (title b) = true ->
  exists t, t_user_id t = c_id user
            /\ tasks (snd (createTask db user b now)) = (tasks db ++ [t])%list.
Proof.
  intros Hb. unfold createTask. rewrite Hb. simpl.
  eexists. split; [|reflexivity]. reflexivity.
Qed.

Lemma create_all_count (uid : Z) (cs : list (Claims * Body * Z)) (db : DB) :
  Forall (fun c : Claims * Body * Z => truthy (title (snd (fst c))) = true) cs ->
  length (filter (fun t => Z.eqb (t_user_id t) uid) (tasks (create_all db cs)))
  = (length (filter (fun t => Z.eqb (t_user_id t) uid) (tasks db))
     + created_by uid cs)%nat.
Proof.
  revert db. induction cs as [|[[user b] now] cs IH]; intros db Hcs; simpl.
  - unfold created_by. simpl. lia.
  - inversion Hcs as [|? ? Hb Hcs']; subst. simpl in Hb.
    rewrite IH by assumption.
    destruct (createTask_tasks db user b now Hb) as (t & Ht & ->).
    rewrite filter_app, length_app. unfold created_by. simpl. rewrite Ht.
    destruct (Z.eqb (c_id user) uid); simpl; lia.
Qed.

(** ** Looking rows up *)

Lemma find_app_none {A : Type} (f : A -> bool) (l l' : list A) :
  find f l = None -> find f (l ++ l') = find f l'.
Proof.
  induction l as [|a l IH]; simpl; [reflexivity|].
  destruct (f a); [discriminate|exact IH].
Qed.

Lemma email_free_find (e : string) (l : list User) :
  email_taken e l = false -> find (fun u => String.eqb (u_email u) e) l = None.
Proof.
  unfold email_taken. intros H. apply find_all_false. intros u Hu.
  destruct (String.eqb (u_email u) e) eqn:E; [|reflexivity].
  rewrite <- H. symmetry. apply existsb_exists. now exists u.
Qed.

Lemma no_password_in_task_rows (l : list Task) :
  existsb (has_key "password") (map task_row l) = false.
Proof.
  induction l as [|t l IH]; simpl; [reflexivity|].
  rewrite IH. now destruct (t_description t).
Qed.

(** ** Rows that differ in the hash only *)

Lemma existsb_related {A : Type} (R : A -> A -> Prop) (f g : A -> bool) (l1 l2 : list A) :
  Forall2 R l1 l2 -> (forall u v, R u v -> f u = g v) -> existsb f l1 = existsb g l2.
Proof.
  intros H Hfg. induction H as [|u v l1 l2 Huv H IH]; simpl; [reflexivity|].
  now rewrite (Hfg u v Huv), IH.
Qed.

Lemma find_related {A : Type} (R : A -> A -> Prop) (f g : A -> bool) (l1 l2 : list A) :
  Forall2 R l1 l2 -> (forall u v, R u v -> f u = g v) ->
  match find f l1, find g l2 with
  | Some u, Some v => R u v
  | None, None => True
  | _, _ => False
  end.
Proof.
  intros H Hfg. induction H as [|u v l1 l2 Huv H IH]; simpl; [exact I|].
  rewrite <- (Hfg u v Huv). now destruct (f u).
Qed.

Lemma Forall2_map_related {A : Type} (R : A -> A -> Prop) (f g : A -> A) (l1 l2 : list A) :
  Forall2 R l1 l2 -> (forall u v, R u v -> R (f u) (g v)) ->
  Forall2 R (map f l1) (map g l2).
Proof.
  intros H Hfg. induction H; simpl; constructor; auto.
Qed.

Lemma Forall2_both {A : Type} (R S : A -> A -> Prop) (l1 l2 : list A) :
  Forall2 R l1 l2 -> Forall2 S l1 l2 -> Forall2 (fun u v => R u v /\ S u v) l1 l2.
Proof.
  intros H. induction H as [|u v l1 l2 Huv H IH]; intros HS; [constructor|].
  inversion HS; subst. constructor; auto.
Qed.

Lemma same_public_ids (l1 l2 : list User) :
  Forall2 same_public l1 l2 -> map u_id l1 = map u_id l2.
Proof.
  intros H. induction H as [|u v l1 l2 [Hid _] H IH]; simpl; [reflexivity|].
  now rewrite Hid, IH.
Qed.

Lemma same_public_row (u v : User) : same_public u v -> profile_row u = profile_row v.
Proof.
  intros (Hid & He & Hn & Hc). unfold profile_row. now rewrite Hid, He, Hn, Hc.
Qed.

Lemma same_public_set (b : Body) (uid : Z) (u v : User) :
  same_public u v ->
  same_public (if Z.eqb (u_id u) uid then set_user b u else u)
              (if Z.eqb (u_id v) uid then set_user b v else v).
Proof.
  intros (Hid & He & Hn & Hc). rewrite Hid.
  destruct (Z.eqb (u_id v) uid); unfold same_public; simpl;
    now rewrite ?Hid, ?He, ?Hn, ?Hc.
Qed.

Section Properties.

Variable bcrypt_hash : string -> string -> string.
Variable bcrypt_compare : string -> string -> bool.
Variable jwt_encode : Claims -> string -> string.
Variable jwt_decode : string -> string -> option Claims.
Variable text_as_integer : string -> option Z.

Hypothesis bcrypt_compare_hash :
  forall data salt, bcrypt_compare data (bcrypt_hash data salt) = true.
Hypothesis jwt_decode_encode :
  forall c key, jwt_decode (jwt_encode c key) key = Some c.

Local Abbreviation jwt_sign := (jwt_sign jwt_encode).
Local Abbreviation jwt_verify := (jwt_verify jwt_decode).
Local Abbreviation authenticateToken := (authenticateToken jwt_decode).
Local Abbreviation guard_by_segment := (guard_by_segment jwt_decode).
Local Abbreviation signup := (signup bcrypt_hash jwt_encode).
Local Abbreviation login := (login bcrypt_compare jwt_encode).
Local Abbreviation id_is := (id_is text_as_integer).
Local Abbreviation owned := (owned text_as_integer).
Local Abbreviation getTask := (getTask text_as_integer).
Local Abbreviation updateTask := (updateTask text_as_integer).
Local Abbreviation deleteTask := (deleteTask text_as_integer).
Local Abbreviation guarded := (guarded jwt_decode).
Local Abbreviation handle :=
  (handle bcrypt_hash bcrypt_compare jwt_encode jwt_decode text_as_integer).
Local Abbreviation run :=
  (run bcrypt_hash bcrypt_compare jwt_encode jwt_decode text_as_integer).
Local Abbreviation signup_json := (signup_json bcrypt_hash jwt_encode).
Local Abbreviation login_json := (login_json bcrypt_compare jwt_encode).
Local Abbreviation handle_json :=
  (handle_json bcrypt_hash bcrypt_compare jwt_encode jwt_decode text_as_integer).
Local Abbreviation run_json :=
  (run_json bcrypt_hash bcrypt_compare jwt_encode jwt_decode text_as_integer).

(** ** The session guard *)

Lemma guard_refines (now : Z) (h : string) :
  authenticateToken now (Some h)
  = guard_by_segment now (between_first_and_second_space h).
Proof.
  unfold authenticateToken, guard_by_segment, bearer.
  destruct (String.eqb h "") eqn:E.
  - apply String.eqb_eq in E. subst h. reflexivity.
  - rewrite second_segment.
    destruct (between_first_and_second_space h) as [seg|]; simpl; [|reflexivity].
    destruct (String.eqb seg ""); reflexivity.
Qed.

(** C10. The guard never looks at the scheme word: what it verifies is the
    text between the first and the second space of the header.  Any word
    followed by one space and a valid token passes; a header without a
    space, with nothing after the space, or with two spaces in a row
    before the token gets 401 'Access token required'. *)
Theorem authenticateToken_ignores_scheme :
  (forall now h,
      authenticateToken now (Some h)
      = guard_by_segment now (between_first_and_second_space h))
  /\ (forall now word token user,
        lacks space word = true -> lacks space token = true -> token <> "" ->
        jwt_verify token JWT_SECRET now = Some user ->
        authenticateToken now (Some (word ++ " " ++ token)) = Next user)
  /\ (forall now h,
        lacks space h = true ->
        authenticateToken now (Some h) = Reject (error 401 "Access token required"))
  /\ (forall now word,
        lacks space word = true ->
        authenticateToken now (Some (word ++ " "))
        = Reject (error 401 "Access token required"))
  /\ (forall now word rest,
        lacks space word = true ->
        authenticateToken now (Some (word ++ "  " ++ rest))
        = Reject (error 401 "Access token required")).
Proof.
  split; [exact guard_refines|].
  repeat split; intros; rewrite guard_refines; unfold between_first_and_second_space.
  - change (word ++ " " ++ token) with (word ++ String space token).
    rewrite after_append by assumption.
    rewrite upto_lacks by assumption. simpl.
    rewrite eqb_empty_false by assumption.
    match goal with H : _ = Some user |- _ => now rewrite H end.
  - now rewrite after_lacks.
  - change (word ++ " ") with (word ++ String space "").
    now rewrite after_append.
  - change (word ++ "  " ++ rest) with (word ++ String space (String space rest)).
    now rewrite after_append.
Qed.

(** ** The primary keys stay distinct *)

Lemma signup_wf (db : DB) (b : Body) (salt : string) (now : Z) :
  wf db -> wf (snd (signup db b salt now)).
Proof.
  intros [Ht Hu]. unfold signup.
  destruct (negb (truthy (email b)) || negb (truthy (password b))
            || negb (truthy (name b))); [now split|].
  destruct (email_taken (text (email b)) (users db)); [now split|].
  split; simpl; [assumption|].
  rewrite map_app. simpl. apply NoDup_snoc; [assumption|apply lastID_fresh].
Qed.

Lemma login_db (db : DB) (b : Body) (now : Z) : snd (login db b now) = db.
Proof.
  unfold login.
  destruct (negb (truthy (email b)) || negb (truthy (password b))); [reflexivity|].
  destruct (find _ (users db)) as [u|]; [|reflexivity].
  now destruct (negb (bcrypt_compare (text (password b)) (u_password u))).
Qed.

Lemma getProfile_db (db : DB) (user : Claims) : snd (getProfile db user) = db.
Proof. unfold getProfile. now destruct (find _ (users db)). Qed.

Lemma getTask_db (db : DB) (user : Claims) (param : string) :
  snd (getTask db user param) = db.
Proof. unfold getTask. now destruct (find _ (tasks db)). Qed.

Lemma updateProfile_wf (db : DB) (user : Claims) (b : Body) :
  wf db -> wf (snd (updateProfile db user b)).
Proof.
  intros [Ht Hu]. unfold updateProfile.
  destruct (negb (truthy (name b)) && negb (truthy (email b))); [now split|].
  destruct (truthy (email b) && email_collides (c_id user) (text (email b)) (users db));
    [now split|].
  split; simpl; [assumption|].
  now rewrite (map_key_if u_id).
Qed.

Lemma createTask_wf (db : DB) (user : Claims) (b : Body) (now : Z) :
  wf db -> wf (snd (createTask db user b now)).
Proof.
  intros [Ht Hu]. unfold createTask.
  destruct (negb (truthy (title b))); [now split|].
  split; simpl; [|assumption].
  rewrite map_app. simpl. apply NoDup_snoc; [assumption|apply lastID_fresh].
Qed.

Lemma updateTask_wf (db : DB) (user : Claims) (param : string) (b : Body) (now : Z) :
  wf db -> wf (snd (updateTask db user param b now)).
Proof.
  intros [Ht Hu]. unfold updateTask.
  destruct (negb (truthy (title b)) && negb (truthy (description b))
            && negb (truthy (status b))); [now split|].
  destruct (Nat.eqb _ 0); (split; simpl; [|assumption]);
    now rewrite (map_key_if t_id).
Qed.

Lemma deleteTask_wf (db : DB) (user : Claims) (param : string) :
  wf db -> wf (snd (deleteTask db user param)).
Proof.
  intros [Ht Hu]. unfold deleteTask.
  destruct (Nat.eqb _ 0); (split; simpl; [|assumption]);
    now apply NoDup_map_filter.
Qed.

Lemma handle_wf (now : Z) (db : DB) (req : Request) :
  wf db -> wf (snd (handle now db req)).
Proof.
  intros Hwf.
  destruct req; simpl; unfold guarded;
    try (destruct (authenticateToken now authorization) as [res|user];
         [exact Hwf|]).
  - now apply signup_wf.
  - now rewrite login_db.
  - now rewrite getProfile_db.
  - now apply updateProfile_wf.
  - now apply createTask_wf.
  - exact Hwf.
  - now rewrite getTask_db.
  - now apply updateTask_wf.
  - now apply deleteTask_wf.
Qed.

Lemma run_wf (reqs : list (Z * Request)) (db : DB) :
  wf db -> wf (run db reqs).
Proof.
  revert db. induction reqs as [|[now req] reqs IH]; intros db Hwf; simpl.
  - exact Hwf.
  - apply IH. now apply handle_wf.
Qed.

(** ** Ownership isolation *)

Lemma guarded_next (now : Z) (authorization : option string) (db : DB)
      (handler : Claims -> Response * DB) (user : Claims) :
  authenticateToken now authorization = Next user ->
  guarded now authorization db handler = handler user.
Proof. intros H. unfold guarded. now rewrite H. Qed.

Lemma id_is_same (param : string) (a b : Z) :
  id_is param a = true -> id_is param b = true -> a = b.
Proof.
  unfold id_is. destruct (text_as_integer param) as [z|]; [|discriminate].
  rewrite !Z.eqb_eq. congruence.
Qed.

Lemma foreign_not_owned (db : DB) (user : Claims) (param : string) (t : Task) :
  wf db -> In t (tasks db) -> id_is param (t_id t) = true ->
  t_user_id t <> c_id user ->
  forall x, In x (tasks db) -> owned param user x = false.
Proof.
  intros [Hnd _] Hin Hid Hother x Hx. unfold owned.
  destruct (id_is param (t_id x)) eqn:E; [|reflexivity]. simpl.
  assert (x = t) as ->
      by (apply (NoDup_map_In_inj t_id (tasks db)); eauto using id_is_same).
  now apply Z.eqb_neq.
Qed.

Lemma unknown_not_owned (db : DB) (user : Claims) (param : string) :
  (forall x, In x (tasks db) -> id_is param (t_id x) = false) ->
  forall x, In x (tasks db) -> owned param user x = false.
Proof.
  intros H x Hx. unfold owned. now rewrite (H x Hx).
Qed.

Lemma getTask_not_owned (db : DB) (user : Claims) (param : string) :
  (forall x, In x (tasks db) -> owned param user x = false) ->
  getTask db user param = (error 404 "Task not found", db).
Proof.
  intros H. unfold getTask. now rewrite find_all_false.
Qed.

Lemma deleteTask_not_owned (db : DB) (user : Claims) (param : string) :
  (forall x, In x (tasks db) -> owned param user x = false) ->
  deleteTask db user param = (error 404 "Task not found", db).
Proof.
  intros H. unfold deleteTask.
  rewrite filter_all_false, filter_negb_all_false by assumption. simpl.
  now rewrite db_eta.
Qed.

Lemma updateTask_not_owned (db : DB) (user : Claims) (param : string) (b : Body) (now : Z) :
  truthy (title b) || truthy (description b) || truthy (status b) = true ->
  (forall x, In x (tasks db) -> owned param user x = false) ->
  updateTask db user param b now = (error 404 "Task not found", db).
Proof.
  intros Hb H. unfold updateTask.
  replace (negb (truthy (title b)) && negb (truthy (description b))
           && negb (truthy (status b))) with false
    by (destruct (truthy (title b)), (truthy (description b)), (truthy (status b));
        simpl in *; congruence).
  rewrite filter_all_false, map_if_all_false by assumption. simpl.
  now rewrite db_eta.
Qed.

Lemma updateTask_rejects (db : DB) (user : Claims) (param : string) (b : Body) (now : Z) :
  truthy (title b) || truthy (description b) || truthy (status b) = false ->
  updateTask db user param b now = (error 400 "At least one field is required", db).
Proof.
  intros Hb. unfold updateTask.
  destruct (truthy (title b)), (truthy (description b)), (truthy (status b));
    simpl in *; congruence.
Qed.

(** C1, as the handlers have it.  When the id in the route names a task of
    another user, [getTask] and [deleteTask] answer 404 'Task not found' and
    [updateTask] does so for every body that passes its field check (the
    check comes first: a body without a usable field gets 400); each of the
    three answers exactly as for an id no task has, and the database is the
    same afterwards.  The same holds of the three routes for every
    Authorization header the guard resolves to that user. *)
Theorem foreign_task_is_not_found
        (db : DB) (user : Claims) (param unknown : string) (t : Task) :
  wf db -> In t (tasks db) -> id_is param (t_id t) = true ->
  t_user_id t <> c_id user ->
  (forall x, In x (tasks db) -> id_is unknown (t_id x) = false) ->
  getTask db user param = (error 404 "Task not found", db)
  /\ getTask db user param = getTask db user unknown
  /\ deleteTask db user param = (error 404 "Task not found", db)
  /\ deleteTask db user param = deleteTask db user unknown
  /\ (forall b now,
        truthy (title b) || truthy (description b) || truthy (status b) = true ->
        updateTask db user param b now = (error 404 "Task not found", db))
  /\ (forall b now,
        updateTask db user param b now = updateTask db user unknown b now)
  /\ (forall now authorization,
        authenticateToken now authorization = Next user ->
        handle now db (GetTask authorization param)
        = (error 404 "Task not found", db)
        /\ handle now db (DeleteTask authorization param)
           = (error 404 "Task not found", db)
        /\ forall b,
            truthy (title b) || truthy (description b) || truthy (status b) = true ->
            handle now db (PutTask authorization param b)
            = (error 404 "Task not found", db)).
Proof.
  intros Hwf Hin Hid Hother Hunknown.
  pose proof (foreign_not_owned db user param t Hwf Hin Hid Hother) as Hp.
  pose proof (unknown_not_owned db user unknown Hunknown) as Hu.
  repeat match goal with
         | |- _ /\ _ => split
         | |- forall now authorization, _ = Next _ -> _ => intros now authorization H
         end.
  - now apply getTask_not_owned.
  - now rewrite !getTask_not_owned.
  - now apply deleteTask_not_owned.
  - now rewrite !deleteTask_not_owned.
  - intros b now Hb. now apply updateTask_not_owned.
  - intros b now.
    destruct (truthy (title b) || truthy (description b) || truthy (status b)) eqn:Hb.
    + now rewrite !updateTask_not_owned.
    + now rewrite !updateTask_rejects.
  - simpl. rewrite (guarded_next _ _ _ _ _ H). now apply getTask_not_owned.
  - simpl. rewrite (guarded_next _ _ _ _ _ H). now apply deleteTask_not_owned.
  - intros b Hb. simpl. rewrite (guarded_next _ _ _ _ _ H).
    now apply updateTask_not_owned.
Qed.

(** C5. A body in which none of title, description and status is set gets
    400 'At least one field is required' and the database, every
    [updated_at] included, is left as it was; the same holds behind the
    guard, whatever the Authorization header. *)
Theorem updateTask_without_fields
        (db : DB) (user : Claims) (param : string) (b : Body) (now : Z) :
  title b = Undefined -> description b = Undefined -> status b = Undefined ->
  updateTask db user param b now = (error 400 "At least one field is required", db)
  /\ forall authorization, snd (handle now db (PutTask authorization param b)) = db.
Proof.
  intros Ht Hd Hs.
  assert (E : updateTask db user param b now
              = (error 400 "At least one field is required", db))
    by (apply updateTask_rejects; now rewrite Ht, Hd, Hs).
  split; [exact E|].
  intros authorization. simpl. unfold guarded.
  destruct (authenticateToken now authorization) as [res|user']; [reflexivity|].
  rewrite updateTask_rejects; [reflexivity|now rewrite Ht, Hd, Hs].
Qed.

(** ** Partial updates *)

Lemma set_user_frame (b : Body) (uid : Z) (u : User) :
  user_frame b uid u (if Z.eqb (u_id u) uid then set_user b u else u).
Proof.
  unfold user_frame. destruct (Z.eqb (u_id u) uid) eqn:E.
  - apply Z.eqb_eq in E. simpl. repeat split; try tauto.
    + intros H. now rewrite (supplied_truthy _ H).
    + intros H. now rewrite (supplied_truthy _ H).
  - repeat split; reflexivity.
Qed.

Lemma set_task_frame (b : Body) (now : Z) (hit : Task -> bool) (t : Task) :
  task_frame b now hit t (if hit t then set_task b now t else t).
Proof.
  unfold task_frame. destruct (hit t) eqn:E.
  - simpl. repeat split; try discriminate.
    + intros H. now rewrite (supplied_truthy _ H).
    + intros H. now destruct (description b).
    + intros H. now rewrite (supplied_truthy _ H).
  - repeat split; try reflexivity. discriminate.
Qed.

(** C9. A successful [updateProfile] leaves every task alone and, in every
    user row, the id, the password hash, [created_at] and each of name and
    email that the body does not carry; rows of other users are untouched.
    A successful [updateTask] leaves every user alone and, in every task
    row, id, owner, [created_at] and each of title, description and status
    that the body does not carry; the addressed row gets [updated_at] set to
    the clock, every other row is untouched. *)
Theorem partial_update_frame :
  (forall db user b res db',
      updateProfile db user b = (res, db') -> res_status res = 200 ->
      tasks db' = tasks db
      /\ Forall2 (user_frame b (c_id user)) (users db) (users db'))
  /\ (forall db user param b now res db',
        updateTask db user param b now = (res, db') -> res_status res = 200 ->
        users db' = users db
        /\ Forall2 (task_frame b now (owned param user)) (tasks db) (tasks db')).
Proof.
  split.
  - intros db user b res db'. unfold updateProfile.
    destruct (negb (truthy (name b)) && negb (truthy (email b)));
      [intros [= <- <-]; discriminate|].
    destruct (truthy (email b) && email_collides (c_id user) (text (email b)) (users db));
      [intros [= <- <-]; discriminate|].
    intros [= <- <-] _. simpl. split; [reflexivity|].
    apply Forall2_map_same. intros u. apply set_user_frame.
  - intros db user param b now res db'. unfold updateTask.
    destruct (negb (truthy (title b)) && negb (truthy (description b))
              && negb (truthy (status b)));
      [intros [= <- <-]; discriminate|].
    destruct (Nat.eqb _ 0); [intros [= <- <-]; discriminate|].
    intros [= <- <-] _. simpl. split; [reflexivity|].
    apply Forall2_map_same. intros t. apply set_task_frame.
Qed.

(** ** Listing *)

(** C7. [listTasks] answers 200 with the rows of exactly the tasks whose
    owner is the caller, none of anyone else, newest [created_at] first; and
    after any run of successful creations it lists, for a user, as many
    tasks more than before as that user created in the run: N from an
    empty table. *)
Theorem listTasks_own_newest_first
        (db : DB) (user : Claims) (cs : list (Claims * Body * Z)) :
  Forall (fun c : Claims * Body * Z => truthy (title (snd (fst c))) = true) cs ->
  exists l,
    listTasks (create_all db cs) user
    = ({| res_status := 200; res_json := JObj [("tasks", JArr (map task_row l))] |},
       create_all db cs)
    /\ Permutation l (filter (fun t => Z.eqb (t_user_id t) (c_id user))
                             (tasks (create_all db cs)))
    /\ (forall t, In t l <-> In t (tasks (create_all db cs)) /\ t_user_id t = c_id user)
    /\ StronglySorted newer_or_same l
    /\ length l
       = (length (filter (fun t => Z.eqb (t_user_id t) (c_id user)) (tasks db))
          + created_by (c_id user) cs)%nat.
Proof.
  intros Hcs.
  set (db' := create_all db cs).
  set (mine := filter (fun t => Z.eqb (t_user_id t) (c_id user)) (tasks db')).
  exists (order_by_created_at_desc mine).
  pose proof (order_by_perm mine) as Hperm.
  split; [reflexivity|]. split; [exact Hperm|]. split; [|split].
  - intros t. split.
    + intros Hin. apply (Permutation_in _ Hperm) in Hin.
      apply filter_In in Hin. now rewrite Z.eqb_eq in Hin.
    + intros [Hin Ho]. apply (Permutation_in _ (Permutation_sym Hperm)).
      apply filter_In. now rewrite Z.eqb_eq.
  - apply order_by_sorted.
  - rewrite (Permutation_length Hperm). unfold mine, db'.
    now apply create_all_count.
Qed.

(** ** Signing up and logging in *)


(** On string fields: a body whose e-mail, password and name pass the check
    of [signup], with an e-mail no row has, is answered 201, and a login with
    the same e-mail and password right afterwards is answered 200 with a
    token [jwt.verify] accepts. *)
Lemma signup_then_login
        (db : DB) (b b' : Body) (salt : string) (t0 t1 t2 : Z) :
  truthy (email b) = true -> truthy (password b) = true -> truthy (name b) = true ->
  email_taken (text (email b)) (users db) = false ->
  email b' = email b -> password b' = password b ->
  t1 <= t2 < t1 + expiresIn_24h ->
  exists id token1 token2 db',
    signup db b salt t0
    = ({| res_status := 201;
          res_json :=
            JObj [("message", JStr "User created successfully");
                  ("token", JStr token1);
                  ("user", JObj [("id", JNum id);
                                 ("email", JStr (text (email b)));
                                 ("name", JStr (text (name b)))])] |}, db')
    /\ login db' b' t1
       = ({| res_status := 200;
             res_json :=
               JObj [("message", JStr "Login successful");
                     ("token", JStr token2);
                     ("user", JObj [("id", JNum id);
                                    ("email", JStr (text (email b)));
                                    ("name", JStr (text (name b)))])] |}, db')
    /\ jwt_verify token2 JWT_SECRET t2
       = Some {| c_id := id; c_email := text (email b);
                 c_iat := t1; c_exp := t1 + expiresIn_24h |}.
Proof.
  intros He Hp Hn Hfree Ee Ep Ht.
  unfold signup. rewrite He, Hp, Hn, Hfree. simpl negb. simpl orb. cbv iota.
  do 4 eexists. split; [reflexivity|].
  unfold login. rewrite Ee, Ep, He, Hp. simpl negb. simpl orb. cbv iota.
  simpl users. rewrite find_app_none by now apply email_free_find.
  simpl find. rewrite String.eqb_refl.
  simpl u_password. rewrite bcrypt_compare_hash. simpl negb. cbv iota.
  split; [reflexivity|].
  unfold jwt_verify, jwt_sign. rewrite jwt_decode_encode. simpl c_exp.
  replace (t2 >=? t1 + expiresIn_24h) with false; [reflexivity|].
  symmetry. rewrite Z.geb_leb. apply Z.leb_gt. lia.
Qed.

Lemma signup_json_string (db : DB) (b : Body) (p salt : string) (now : Z) :
  signup_json db b (VStr p) salt now = signup db (set_password b (Str p)) salt now.
Proof.
  unfold signup_json, signup. simpl.
  now destruct (negb (truthy (email b)) || negb (negb (String.eqb p ""))
                || negb (truthy (name b))).
Qed.

Lemma login_json_string (db : DB) (b : Body) (p : string) (now : Z) :
  login_json db b (VStr p) now = login db (set_password b (Str p)) now.
Proof.
  unfold login_json, login. simpl.
  destruct (negb (truthy (email b)) || negb (negb (String.eqb p ""))); [reflexivity|].
  now destruct (find _ (users db)).
Qed.

(** C6, as the handlers have it.  When e-mail, password and name pass the
    check of signup, the password is a string and no row has the e-mail,
    signup is answered 201; a login with the same e-mail and password right
    afterwards is answered 200 with a token that [jwt.verify] accepts under
    the server's key at any time before the 24 hours are over, and which
    names the new user. *)
Theorem string_signup_then_login
        (db : DB) (b b' : Body) (pw : Value) (salt : string) (t0 t1 t2 : Z) :
  truthy (email b) = true -> truthy_value pw = true -> truthy (name b) = true ->
  is_string pw = true ->
  email_taken (text (email b)) (users db) = false ->
  email b' = email b ->
  t1 <= t2 < t1 + expiresIn_24h ->
  exists id token1 token2 db',
    signup_json db b pw salt t0
    = ({| res_status := 201;
          res_json :=
            JObj [("message", JStr "User created successfully");
                  ("token", JStr token1);
                  ("user", JObj [("id", JNum id);
                                 ("email", JStr (text (email b)));
                                 ("name", JStr (text (name b)))])] |}, db')
    /\ login_json db' b' pw t1
       = ({| res_status := 200;
             res_json :=
               JObj [("message", JStr "Login successful");
                     ("token", JStr token2);
                     ("user", JObj [("id", JNum id);
                                    ("email", JStr (text (email b)));
                                    ("name", JStr (text (name b)))])] |}, db')
    /\ jwt_verify token2 JWT_SECRET t2
       = Some {| c_id := id; c_email := text (email b);
                 c_iat := t1; c_exp := t1 + expiresIn_24h |}.
Proof.
  intros He Hp Hn Hstr Hfree Ee Ht.
  destruct pw as [| | | |p| |]; try discriminate Hstr.
  rewrite signup_json_string.
  destruct (signup_then_login db (set_password b (Str p)) (set_password b' (Str p))
                              salt t0 t1 t2 He Hp Hn Hfree Ee eq_refl Ht)
    as (id & token1 & token2 & db' & Hs & Hl & Hv).
  exists id, token1, token2, db'. rewrite login_json_string. now repeat split.
Qed.

(** C4, as the handlers have it.  The token in a 201 answer of [signup] and
    in a 200 answer of [login] decodes under the server's key to the claims
    id, email, iat and exp (the user id is under [id]; there is no [sub]),
    where id and email are those of the user in the answer, iat is the clock
    at issuance and exp is iat plus 24 hours. *)
Theorem token_claims :
  (forall db b salt now res db',
      signup db b salt now = (res, db') -> res_status res = 201 ->
      exists token c,
        get "token" (res_json res) = JStr token
        /\ jwt_decode token JWT_SECRET = Some c
        /\ claims_json c
           = JObj [("id", JNum (c_id c)); ("email", JStr (c_email c));
                   ("iat", JNum now); ("exp", JNum (now + 86400))]
        /\ get "id" (get "user" (res_json res)) = JNum (c_id c)
        /\ get "email" (get "user" (res_json res)) = JStr (c_email c))
  /\ (forall db b now res db',
        login db b now = (res, db') -> res_status res = 200 ->
        exists token c,
          get "token" (res_json res) = JStr token
          /\ jwt_decode token JWT_SECRET = Some c
          /\ claims_json c
             = JObj [("id", JNum (c_id c)); ("email", JStr (c_email c));
                     ("iat", JNum now); ("exp", JNum (now + 86400))]
          /\ get "id" (get "user" (res_json res)) = JNum (c_id c)
          /\ get "email" (get "user" (res_json res)) = JStr (c_email c)).
Proof.
  split.
  - intros db b salt now res db'. unfold signup.
    destruct (negb (truthy (email b)) || negb (truthy (password b))
              || negb (truthy (name b)));
      [intros [= <- <-]; discriminate|].
    destruct (email_taken (text (email b)) (users db));
      [intros [= <- <-]; discriminate|].
    intros [= <- <-] _. do 2 eexists. simpl.
    split; [reflexivity|]. split; [apply jwt_decode_encode|].
    repeat split.
  - intros db b now res db'. unfold login.
    destruct (negb (truthy (email b)) || negb (truthy (password b)));
      [intros [= <- <-]; discriminate|].
    destruct (find _ (users db)) as [u|]; [|intros [= <- <-]; discriminate].
    destruct (negb (bcrypt_compare (text (password b)) (u_password u)));
      [intros [= <- <-]; discriminate|].
    intros [= <- <-] _. do 2 eexists. simpl.
    split; [reflexivity|]. split; [apply jwt_decode_encode|].
    repeat split.
Qed.

(** ** What the answers show *)

Lemma no_password_in_error (code : Z) (msg : string) :
  has_key "password" (res_json (error code msg)) = false.
Proof. reflexivity. Qed.

Lemma no_password_signup (db : DB) (b : Body) (salt : string) (now : Z) :
  has_key "password" (res_json (fst (signup db b salt now))) = false.
Proof.
  unfold signup.
  destruct (negb (truthy (email b)) || negb (truthy (password b))
            || negb (truthy (name b))); [reflexivity|].
  now destruct (email_taken (text (email b)) (users db)).
Qed.

Lemma no_password_login (db : DB) (b : Body) (now : Z) :
  has_key "password" (res_json (fst (login db b now))) = false.
Proof.
  unfold login.
  destruct (negb (truthy (email b)) || negb (truthy (password b))); [reflexivity|].
  destruct (find _ (users db)) as [u|]; [|reflexivity].
  now destruct (negb (bcrypt_compare (text (password b)) (u_password u))).
Qed.

Lemma no_password_task_row (r : option Task) :
  has_key "password" (row_or_undefined task_row r) = false.
Proof. destruct r as [t|]; simpl; [|reflexivity]. now destruct (t_description t). Qed.

Lemma no_password_profile_row (r : option User) :
  has_key "password" (row_or_undefined profile_row r) = false.
Proof. now destruct r. Qed.

Lemma no_password_handler (user : Claims) (now : Z) (db : DB) (param : string) (b : Body) :
  has_key "password" (res_json (fst (getProfile db user))) = false
  /\ has_key "password" (res_json (fst (updateProfile db user b))) = false
  /\ has_key "password" (res_json (fst (createTask db user b now))) = false
  /\ has_key "password" (res_json (fst (listTasks db user))) = false
  /\ has_key "password" (res_json (fst (getTask db user param))) = false
  /\ has_key "password" (res_json (fst (updateTask db user param b now))) = false
  /\ has_key "password" (res_json (fst (deleteTask db user param))) = false.
Proof.
  repeat match goal with |- _ /\ _ => split end.
  - unfold getProfile. now destruct (find _ (users db)).
  - unfold updateProfile.
    destruct (negb (truthy (name b)) && negb (truthy (email b))); [reflexivity|].
    destruct (truthy (email b) && email_collides (c_id user) (text (email b)) (users db));
      [reflexivity|].
    simpl. now rewrite no_password_profile_row.
  - unfold createTask. destruct (negb (truthy (title b))); [reflexivity|].
    simpl. now rewrite no_password_task_row.
  - simpl. now rewrite no_password_in_task_rows.
  - unfold getTask. destruct (find _ (tasks db)) as [t|]; [|reflexivity].
    simpl. now destruct (t_description t).
  - unfold updateTask.
    destruct (negb (truthy (title b)) && negb (truthy (description b))
              && negb (truthy (status b))); [reflexivity|].
    destruct (Nat.eqb _ 0); [reflexivity|].
    simpl. now rewrite no_password_task_row.
  - unfold deleteTask. now destruct (Nat.eqb _ 0).
Qed.

(** *** The answers do not depend on the stored hashes *)

Lemma signup_same_answer (db1 db2 : DB) (b : Body) (salt : string) (now : Z) :
  same_but_hashes db1 db2 ->
  fst (signup db1 b salt now) = fst (signup db2 b salt now).
Proof.
  intros (Hu & Hseq & _ & _). unfold signup.
  destruct (negb (truthy (email b)) || negb (truthy (password b))
            || negb (truthy (name b))); [reflexivity|].
  assert (Hem : email_taken (text (email b)) (users db1)
                = email_taken (text (email b)) (users db2)).
  { unfold email_taken. apply (existsb_related same_public); [assumption|].
    intros u v (_ & He & _). now rewrite He. }
  rewrite Hem.
  destruct (email_taken (text (email b)) (users db2)); [reflexivity|].
  simpl. now rewrite Hseq, (same_public_ids _ _ Hu).
Qed.

Lemma login_same_answer (db1 db2 : DB) (b : Body) (now : Z) :
  same_but_hashes db1 db2 ->
  same_verdicts bcrypt_compare (text (password b)) db1 db2 ->
  fst (login db1 b now) = fst (login db2 b now).
Proof.
  intros (Hu & _) Hv. unfold login.
  destruct (negb (truthy (email b)) || negb (truthy (password b))); [reflexivity|].
  pose proof (find_related _ (fun u => String.eqb (u_email u) (text (email b)))
                           (fun u => String.eqb (u_email u) (text (email b)))
                           _ _ (Forall2_both _ _ _ _ Hu Hv)) as Hf.
  simpl in Hf.
  destruct (find _ (users db1)) as [u|], (find _ (users db2)) as [v|];
    try (exfalso; apply Hf; intros ? ? [(_ & He & _) _]; now rewrite He);
    [|reflexivity].
  destruct Hf as [(Hid & He & Hn & _) Hc];
    [intros ? ? [(_ & He & _) _]; now rewrite He|].
  rewrite Hc. destruct (negb (bcrypt_compare (text (password b)) (u_password v)));
    [reflexivity|]. simpl. now rewrite Hid, He, Hn.
Qed.

Lemma getProfile_same_answer (db1 db2 : DB) (user : Claims) :
  same_but_hashes db1 db2 ->
  fst (getProfile db1 user) = fst (getProfile db2 user).
Proof.
  intros (Hu & _). unfold getProfile.
  pose proof (find_related same_public (fun u => Z.eqb (u_id u) (c_id user))
                           (fun u => Z.eqb (u_id u) (c_id user)) _ _ Hu) as Hf.
  destruct (find _ (users db1)) as [u|], (find _ (users db2)) as [v|];
    try (exfalso; apply Hf; intros ? ? (Hid & _); now rewrite Hid);
    [|reflexivity].
  simpl. rewrite (same_public_row u v); [reflexivity|].
  apply Hf. intros ? ? (Hid & _). now rewrite Hid.
Qed.

Lemma updateProfile_same_answer (db1 db2 : DB) (user : Claims) (b : Body) :
  same_but_hashes db1 db2 ->
  fst (updateProfile db1 user b) = fst (updateProfile db2 user b).
Proof.
  intros (Hu & _). unfold updateProfile.
  destruct (negb (truthy (name b)) && negb (truthy (email b))); [reflexivity|].
  assert (Hc : email_collides (c_id user) (text (email b)) (users db1)
               = email_collides (c_id user) (text (email b)) (users db2)).
  { unfold email_collides. f_equal.
    - apply (existsb_related same_public); [assumption|].
      intros u v (Hid & _). now rewrite Hid.
    - apply (existsb_related same_public); [assumption|].
      intros u v (Hid & He & _). now rewrite Hid, He. }
  rewrite Hc.
  destruct (truthy (email b) && email_collides (c_id user) (text (email b)) (users db2));
    [reflexivity|].
  simpl.
  pose proof (find_related same_public (fun u => Z.eqb (u_id u) (c_id user))
                (fun u => Z.eqb (u_id u) (c_id user)) _ _
                (Forall2_map_related same_public _ _ _ _ Hu
                   (fun u v H => same_public_set b (c_id user) u v H))) as Hf.
  destruct (find _ (map _ (users db1))) as [u|], (find _ (map _ (users db2))) as [v|];
    try (exfalso; apply Hf; intros ? ? (Hid & _); now rewrite Hid);
    [|reflexivity].
  simpl. rewrite (same_public_row u v); [reflexivity|].
  apply Hf. intros ? ? (Hid & _). now rewrite Hid.
Qed.

Lemma task_routes_same_answer
      (db1 db2 : DB) (user : Claims) (param : string) (b : Body) (now : Z) :
  same_but_hashes db1 db2 ->
  fst (createTask db1 user b now) = fst (createTask db2 user b now)
  /\ fst (listTasks db1 user) = fst (listTasks db2 user)
  /\ fst (getTask db1 user param) = fst (getTask db2 user param)
  /\ fst (updateTask db1 user param b now) = fst (updateTask db2 user param b now)
  /\ fst (deleteTask db1 user param) = fst (deleteTask db2 user param).
Proof.
  intros (_ & _ & Ht & Hs).
  unfold createTask, listTasks, getTask, updateTask, deleteTask.
  rewrite Ht, Hs. repeat split.
  - now destruct (negb (truthy (title b))).
  - now destruct (find _ (tasks db2)).
  - destruct (negb (truthy (title b)) && negb (truthy (description b))
              && negb (truthy (status b))); [reflexivity|].
    now destruct (Nat.eqb _ 0).
  - now destruct (Nat.eqb _ 0).
Qed.

Lemma handle_same_answer (now : Z) (db1 db2 : DB) (req : Request) :
  same_but_hashes db1 db2 ->
  (forall b, req = PostLogin b ->
             same_verdicts bcrypt_compare (text (password b)) db1 db2) ->
  fst (handle now db1 req) = fst (handle now db2 req).
Proof.
  intros H Hv.
  destruct req; simpl; unfold guarded;
    try (destruct (authenticateToken now authorization) as [res|user]; [reflexivity|]).
  - now apply signup_same_answer.
  - apply login_same_answer; [assumption|]. now apply Hv.
  - now apply getProfile_same_answer.
  - now apply updateProfile_same_answer.
  - now apply (task_routes_same_answer db1 db2 user ""%string b now).
  - now apply (task_routes_same_answer db1 db2 user ""%string no_fields now).
  - now apply (task_routes_same_answer db1 db2 user param no_fields now).
  - now apply (task_routes_same_answer db1 db2 user param b now).
  - now apply (task_routes_same_answer db1 db2 user param no_fields now).
Qed.

Lemma handle_json_same_answer (now : Z) (db1 db2 : DB) (req : JsonRequest) :
  same_but_hashes db1 db2 ->
  (forall p, login_password req = Some p -> same_verdicts bcrypt_compare p db1 db2) ->
  fst (handle_json now db1 req) = fst (handle_json now db2 req).
Proof.
  intros H Hv. destruct req as [b pw salt|b pw|req]; simpl.
  - unfold signup_json.
    destruct (negb (truthy (email b)) || negb (truthy_value pw) || negb (truthy (name b)));
      [reflexivity|].
    destruct pw; try reflexivity. now apply signup_same_answer.
  - unfold login_json.
    destruct (negb (truthy (email b)) || negb (truthy_value pw)); [reflexivity|].
    pose proof H as (Hu & _).
    pose proof (find_related same_public
                  (fun u => String.eqb (u_email u) (text (email b)))
                  (fun u => String.eqb (u_email u) (text (email b))) _ _ Hu) as Hf.
    destruct (find _ (users db1)) as [u|], (find _ (users db2)) as [v|];
      try (exfalso; apply Hf; intros ? ? (_ & He & _); now rewrite He);
      [|reflexivity].
    destruct pw; try reflexivity.
    apply login_same_answer; [assumption|]. now apply Hv.
  - apply handle_same_answer; [assumption|].
    intros b ->. now apply Hv.
Qed.

Lemma signup_json_salt (db : DB) (b : Body) (pw : Value) (salt1 salt2 : string) (now : Z) :
  fst (signup_json db b pw salt1 now) = fst (signup_json db b pw salt2 now).
Proof.
  unfold signup_json.
  destruct (negb (truthy (email b)) || negb (truthy_value pw) || negb (truthy (name b)));
    [reflexivity|].
  destruct pw; try reflexivity. unfold signup. simpl.
  destruct (negb (truthy (email b)) || negb (negb (String.eqb s ""))
            || negb (truthy (name b))); [reflexivity|].
  now destruct (email_taken (text (email b)) (users db)).
Qed.

(** C8.  The stored hash never reaches an answer.  On two databases that
    differ only in the stored password hashes every route answers the same,
    a login included as long as [bcrypt.compare] gives the same verdict on
    the password offered; the answer to a signup does not depend on the salt
    of the hash it stores.  No answer of any route has a member named
    [password] at any depth; the user object of a 200 answer of [getProfile]
    has exactly the members id, email, name and created_at, and the user
    objects of a 201 answer of [signup] and of a 200 answer of [login] have
    exactly id, email and name. *)
Theorem password_hash_never_returned :
  (forall now db req, has_key "password" (res_json (fst (handle now db req))) = false)
  /\ (forall db user,
        res_status (fst (getProfile db user)) = 200 ->
        keys (get "user" (res_json (fst (getProfile db user))))
        = ["id"; "email"; "name"; "created_at"])
  /\ (forall db b salt now,
        res_status (fst (signup db b salt now)) = 201 ->
        keys (get "user" (res_json (fst (signup db b salt now))))
        = ["id"; "email"; "name"])
  /\ (forall db b now,
        res_status (fst (login db b now)) = 200 ->
        keys (get "user" (res_json (fst (login db b now))))
        = ["id"; "email"; "name"])
  /\ (forall now db1 db2 req,
        same_but_hashes db1 db2 ->
        (forall p, login_password req = Some p ->
                   same_verdicts bcrypt_compare p db1 db2) ->
        fst (handle_json now db1 req) = fst (handle_json now db2 req))
  /\ (forall db b pw salt1 salt2 now,
        fst (signup_json db b pw salt1 now) = fst (signup_json db b pw salt2 now)).
Proof.
  repeat match goal with |- _ /\ _ => split end.
  - intros now db req.
    destruct req; simpl; unfold guarded;
      try (destruct (authenticateToken now authorization) as [res|user] eqn:G;
           [unfold authenticateToken in G;
            destruct (negb (truthy (bearer authorization)));
            [now injection G as <-|];
            destruct (jwt_verify _ JWT_SECRET now); [discriminate|now injection G as <-]
           |]);
      try apply no_password_signup; try apply no_password_login;
      apply (no_password_handler user now db ""%string no_fields)
      || apply (no_password_handler user now db ""%string b)
      || apply (no_password_handler user now db param no_fields)
      || apply (no_password_handler user now db param b).
  - intros db user. unfold getProfile.
    destruct (find _ (users db)); [reflexivity|discriminate].
  - intros db b salt now. unfold signup.
    destruct (negb (truthy (email b)) || negb (truthy (password b))
              || negb (truthy (name b))); [discriminate|].
    destruct (email_taken (text (email b)) (users db)); [discriminate|reflexivity].
  - intros db b now. unfold login.
    destruct (negb (truthy (email b)) || negb (truthy (password b))); [discriminate|].
    destruct (find _ (users db)) as [u|]; [|discriminate].
    destruct (negb (bcrypt_compare (text (password b)) (u_password u)));
      [discriminate|reflexivity].
  - exact handle_json_same_answer.
  - exact signup_json_salt.
Qed.

(** ** The signing key *)

(** C3, as the program has it.  Whatever the environment holds, and when it holds
    nothing, the process starts, and the key under which tokens are signed
    and verified is the literal written in the program. *)
Theorem secret_is_a_program_literal :
  (forall env : Env,
      start env
      = Some {| srv_secret := "your-secret-key-change-in-production";
                srv_port := 3000; srv_db := empty_db |})
  /\ (exists srv, start (fun _ => None) = Some srv)
  /\ (forall id mail now,
        jwt_sign id mail JWT_SECRET expiresIn_24h now
        = jwt_encode {| c_id := id; c_email := mail; c_iat := now;
                        c_exp := now + expiresIn_24h |}
                     "your-secret-key-change-in-production")
  /\ (forall token now,
        jwt_verify token JWT_SECRET now
        = jwt_verify token "your-secret-key-change-in-production" now).
Proof.
  repeat split. now eexists.
Qed.

End Properties.

(** ** The executable instance satisfies the laws *)

Lemma toy_read_digits (p : positive) (rest : string) :
  Toy.read_digits (Toy.digits p ++ rest) = Some (p, rest).
Proof.
  induction p as [q IH|q IH|]; simpl; try rewrite IH; reflexivity.
Qed.

Lemma toy_read_numeral (z : Z) (rest : string) :
  Toy.read_numeral (Toy.numeral z ++ rest) = Some (z, rest).
Proof.
  destruct z as [|p|p]; simpl; try rewrite toy_read_digits; reflexivity.
Qed.

Lemma toy_strip (key s : string) : Toy.strip key (key ++ s) = Some s.
Proof.
  induction key as [|k key IH]; simpl.
  - now destruct s.
  - now rewrite Ascii.eqb_refl.
Qed.

Lemma toy_jwt_decode_encode (c : Claims) (key : string) :
  Toy.jwt_decode (Toy.jwt_encode c key) key = Some c.
Proof.
  unfold Toy.jwt_decode, Toy.jwt_encode.
  rewrite toy_strip. repeat rewrite toy_read_numeral.
  now destruct c.
Qed.

Lemma toy_bcrypt_compare_hash (data salt : string) :
  Toy.bcrypt_compare data (Toy.bcrypt_hash data salt) = true.
Proof.
  unfold Toy.bcrypt_compare, Toy.bcrypt_hash. apply String.eqb_refl.
Qed.

(** ** Instances at concrete inputs *)

(** The scenario of the specification ends with B asking for A's task. *)
Example scenario_get_is_404 :
  Toy.handle 103 Toy.db3 (GetTask (Some ("Bearer " ++ Toy.T2)) "1")
  = (error 404 "Task not found", Toy.db3).
Proof. reflexivity. Qed.

Example scenario_owner_get_is_200 :
  Toy.handle 103 Toy.db3 (GetTask (Some ("Bearer " ++ Toy.T1)) "1")
  = ({| res_status := 200; res_json := JObj [("task", task_row Toy.task1)] |}, Toy.db3).
Proof. reflexivity. Qed.

Lemma authenticateToken_ignores_scheme_witness :
  lacks space "AnyWord" = true /\ lacks space Toy.T1 = true /\ Toy.T1 <> ""
  /\ jwt_verify Toy.jwt_decode Toy.T1 JWT_SECRET 103 = Some Toy.userA
  /\ authenticateToken Toy.jwt_decode 103 (Some ("AnyWord " ++ Toy.T1)) = Next Toy.userA
  /\ authenticateToken Toy.jwt_decode 103 (Some "Bearer")
     = Reject (error 401 "Access token required")
  /\ authenticateToken Toy.jwt_decode 103 (Some ("Bearer" ++ " "))
     = Reject (error 401 "Access token required")
  /\ authenticateToken Toy.jwt_decode 103 (Some ("Bearer" ++ "  " ++ Toy.T1))
     = Reject (error 401 "Access token required").
Proof.
  assert (Hw : lacks space "AnyWord" = true) by reflexivity.
  assert (Hb : lacks space "Bearer" = true) by reflexivity.
  assert (Ht : lacks space Toy.T1 = true) by (vm_compute; reflexivity).
  assert (Hn : Toy.T1 <> "") by (vm_compute; discriminate).
  assert (Hv : jwt_verify Toy.jwt_decode Toy.T1 JWT_SECRET 103 = Some Toy.userA)
    by (vm_compute; reflexivity).
  destruct (authenticateToken_ignores_scheme Toy.jwt_decode) as (_ & Hok & Hno & He & Hd).
  refine (conj Hw (conj Ht (conj Hn (conj Hv (conj _ (conj _ (conj _ _))))))).
  - exact (Hok 103 "AnyWord" Toy.T1 Toy.userA Hw Ht Hn Hv).
  - exact (Hno 103 "Bearer" Hb).
  - exact (He 103 "Bearer" Hb).
  - exact (Hd 103 "Bearer" Toy.T1 Hb).
Defined.


Lemma toy_db3_wf : wf Toy.db3.
Proof. apply run_wf, wf_empty. Qed.

Lemma foreign_task_is_not_found_witness :
  getTask Toy.text_as_integer Toy.db3 Toy.userB "1"
  = (error 404 "Task not found", Toy.db3)
  /\ getTask Toy.text_as_integer Toy.db3 Toy.userB "1"
     = getTask Toy.text_as_integer Toy.db3 Toy.userB "7"
  /\ deleteTask Toy.text_as_integer Toy.db3 Toy.userB "1"
     = (error 404 "Task not found", Toy.db3)
  /\ deleteTask Toy.text_as_integer Toy.db3 Toy.userB "1"
     = deleteTask Toy.text_as_integer Toy.db3 Toy.userB "7"
  /\ (forall b now,
        truthy (title b) || truthy (description b) || truthy (status b) = true ->
        updateTask Toy.text_as_integer Toy.db3 Toy.userB "1" b now
        = (error 404 "Task not found", Toy.db3))
  /\ (forall b now,
        updateTask Toy.text_as_integer Toy.db3 Toy.userB "1" b now
        = updateTask Toy.text_as_integer Toy.db3 Toy.userB "7" b now)
  /\ (forall now authorization,
        authenticateToken Toy.jwt_decode now authorization = Next Toy.userB ->
        Toy.handle now Toy.db3 (GetTask authorization "1")
        = (error 404 "Task not found", Toy.db3)
        /\ Toy.handle now Toy.db3 (DeleteTask authorization "1")
           = (error 404 "Task not found", Toy.db3)
        /\ forall b,
            truthy (title b) || truthy (description b) || truthy (status b) = true ->
            Toy.handle now Toy.db3 (PutTask authorization "1" b)
            = (error 404 "Task not found", Toy.db3)).
Proof.
  apply (foreign_task_is_not_found
           Toy.bcrypt_hash Toy.bcrypt_compare Toy.jwt_encode Toy.jwt_decode
           Toy.text_as_integer Toy.db3 Toy.userB "1" "7" Toy.task1).
  - exact toy_db3_wf.
  - vm_compute. left. reflexivity.
  - reflexivity.
  - vm_compute. discriminate.
  - intros x Hx. vm_compute in Hx. destruct Hx as [<-|[]]. reflexivity.
Defined.

(** C1 as worded fails for [updateTask]: B addressing A's task with a body
    that sets no field is answered 400, not 404. *)
Lemma foreign_update_without_fields_is_400 :
  In Toy.task1 (tasks Toy.db3)
  /\ id_is Toy.text_as_integer "1" (t_id Toy.task1) = true
  /\ t_user_id Toy.task1 <> c_id Toy.userB
  /\ updateTask Toy.text_as_integer Toy.db3 Toy.userB "1" no_fields 103
     = (error 400 "At least one field is required", Toy.db3)
  /\ res_status (fst (updateTask Toy.text_as_integer Toy.db3 Toy.userB "1" no_fields 103))
     <> 404.
Proof.
  split; [vm_compute; left; reflexivity|].
  split; [reflexivity|].
  split; [vm_compute; discriminate|].
  split; [reflexivity|vm_compute; discriminate].
Qed.

Lemma updateTask_without_fields_witness :
  updateTask Toy.text_as_integer Toy.db3 Toy.userA "1" no_fields 103
  = (error 400 "At least one field is required", Toy.db3)
  /\ forall authorization,
      snd (Toy.handle 103 Toy.db3 (PutTask authorization "1" no_fields)) = Toy.db3.
Proof.
  exact (updateTask_without_fields
           Toy.bcrypt_hash Toy.bcrypt_compare Toy.jwt_encode Toy.jwt_decode
           Toy.text_as_integer Toy.db3 Toy.userA "1" no_fields 103
           eq_refl eq_refl eq_refl).
Defined.



Lemma token_claims_witness :
  exists token c,
    get "token" (res_json (fst (Toy.handle 100 empty_db
                                  (PostSignup (Toy.body_signup "a@x.com" "p1" "A") "salt1"))))
    = JStr token
    /\ Toy.jwt_decode token JWT_SECRET = Some c
    /\ claims_json c
       = JObj [("id", JNum (c_id c)); ("email", JStr (c_email c));
               ("iat", JNum 100); ("exp", JNum (100 + 86400))]
    /\ get "id" (get "user" (res_json (fst (Toy.handle 100 empty_db
                   (PostSignup (Toy.body_signup "a@x.com" "p1" "A") "salt1")))))
       = JNum (c_id c)
    /\ get "email" (get "user" (res_json (fst (Toy.handle 100 empty_db
                      (PostSignup (Toy.body_signup "a@x.com" "p1" "A") "salt1")))))
       = JStr (c_email c).
Proof.
  apply (proj1 (token_claims Toy.bcrypt_hash Toy.bcrypt_compare Toy.jwt_encode
                             Toy.jwt_decode toy_jwt_decode_encode)
               empty_db (Toy.body_signup "a@x.com" "p1" "A") "salt1" 100 _
               (snd (Toy.handle 100 empty_db
                       (PostSignup (Toy.body_signup "a@x.com" "p1" "A") "salt1")))).
  - reflexivity.
  - reflexivity.
Defined.

(** C4 as worded fails: the token A gets at signup decodes to four claims,
    the user id under [id]; it has no [sub], and it has [iat] besides
    [exp]. *)
Lemma token_has_id_and_iat_but_no_sub :
  exists c,
    get "token" (res_json (fst (Toy.handle 100 empty_db
                                  (PostSignup (Toy.body_signup "a@x.com" "p1" "A") "salt1"))))
    = JStr Toy.T1
    /\ Toy.jwt_decode Toy.T1 JWT_SECRET = Some c
    /\ keys (claims_json c) = ["id"; "email"; "iat"; "exp"]
    /\ keys (claims_json c) <> ["sub"; "email"; "exp"]
    /\ get "sub" (claims_json c) = JUndefined
    /\ get "id" (claims_json c) = JNum 1.
Proof.
  exists Toy.userA. repeat split. discriminate.
Qed.

Lemma listTasks_own_newest_first_witness :
  exists l,
    listTasks (create_all empty_db Toy.creations) Toy.userA
    = ({| res_status := 200; res_json := JObj [("tasks", JArr (map task_row l))] |},
       create_all empty_db Toy.creations)
    /\ Permutation l (filter (fun t => Z.eqb (t_user_id t) (c_id Toy.userA))
                             (tasks (create_all empty_db Toy.creations)))
    /\ (forall t, In t l <-> In t (tasks (create_all empty_db Toy.creations))
                            /\ t_user_id t = c_id Toy.userA)
    /\ StronglySorted newer_or_same l
    /\ length l = (0 + 2)%nat.
Proof.
  apply (listTasks_own_newest_first empty_db Toy.userA Toy.creations).
  repeat constructor.
Defined.

Lemma toy_db3_same_but_hashes : same_but_hashes Toy.db3 Toy.db3_rehashed.
Proof.
  split; [|now repeat split].
  vm_compute. repeat constructor.
Qed.

Lemma password_hash_never_returned_witness :
  keys (get "user" (res_json (fst (getProfile Toy.db3 Toy.userA))))
  = ["id"; "email"; "name"; "created_at"]
  /\ keys (get "user" (res_json (fst (signup Toy.bcrypt_hash Toy.jwt_encode empty_db
                                        (Toy.body_signup "a@x.com" "p1" "A") "salt1" 100))))
     = ["id"; "email"; "name"]
  /\ keys (get "user" (res_json (fst (login Toy.bcrypt_compare Toy.jwt_encode Toy.db3
                                       (Toy.body_login "a@x.com" "p1") 103))))
     = ["id"; "email"; "name"]
  /\ fst (handle_json Toy.bcrypt_hash Toy.bcrypt_compare Toy.jwt_encode Toy.jwt_decode
                      Toy.text_as_integer 103 Toy.db3
                      (Typed (GetProfile (Some ("Bearer " ++ Toy.T1)))))
     = fst (handle_json Toy.bcrypt_hash Toy.bcrypt_compare Toy.jwt_encode Toy.jwt_decode
                        Toy.text_as_integer 103 Toy.db3_rehashed
                        (Typed (GetProfile (Some ("Bearer " ++ Toy.T1)))))
  /\ fst (handle_json Toy.bcrypt_hash Toy.bcrypt_compare Toy.jwt_encode Toy.jwt_decode
                      Toy.text_as_integer 103 Toy.db3
                      (JsonLogin (Toy.body_email "a@x.com") (VStr "zzz")))
     = fst (handle_json Toy.bcrypt_hash Toy.bcrypt_compare Toy.jwt_encode Toy.jwt_decode
                        Toy.text_as_integer 103 Toy.db3_rehashed
                        (JsonLogin (Toy.body_email "a@x.com") (VStr "zzz"))).
Proof.
  destruct (password_hash_never_returned
              Toy.bcrypt_hash Toy.bcrypt_compare Toy.jwt_encode Toy.jwt_decode
              Toy.text_as_integer) as (_ & Hprofile & Hsignup & Hlogin & Hsame & _).
  refine (conj (Hprofile Toy.db3 Toy.userA _)
            (conj (Hsignup _ _ _ _ _)
               (conj (Hlogin _ _ _ _)
                  (conj (Hsame 103 Toy.db3 Toy.db3_rehashed _ toy_db3_same_but_hashes _)
                        (Hsame 103 Toy.db3 Toy.db3_rehashed _ toy_db3_same_but_hashes _)))));
    try reflexivity.
  - intros p Hp. discriminate Hp.
  - intros p Hp. injection Hp as <-. vm_compute. repeat constructor.
Defined.

Lemma partial_update_frame_witness :
  (users (snd (updateTask Toy.text_as_integer Toy.db3 Toy.userA "1"
                          (Toy.body_task "buy bread") 104))
   = users Toy.db3
   /\ Forall2 (task_frame (Toy.body_task "buy bread") 104
                          (owned Toy.text_as_integer "1" Toy.userA))
              (tasks Toy.db3)
              (tasks (snd (updateTask Toy.text_as_integer Toy.db3 Toy.userA "1"
                                      (Toy.body_task "buy bread") 104))))
  /\ (tasks (snd (updateProfile Toy.db3 Toy.userA (Toy.body_name "Ann")))
      = tasks Toy.db3
      /\ Forall2 (user_frame (Toy.body_name "Ann") (c_id Toy.userA))
                 (users Toy.db3)
                 (users (snd (updateProfile Toy.db3 Toy.userA (Toy.body_name "Ann"))))).
Proof.
  destruct (partial_update_frame Toy.text_as_integer) as [Hprofile Htask].
  split.
  - apply (Htask Toy.db3 Toy.userA "1"%string (Toy.body_task "buy bread") 104
                 (fst (updateTask Toy.text_as_integer Toy.db3 Toy.userA "1"
                                  (Toy.body_task "buy bread") 104)));
      reflexivity.
  - apply (Hprofile Toy.db3 Toy.userA (Toy.body_name "Ann")
                    (fst (updateProfile Toy.db3 Toy.userA (Toy.body_name "Ann"))));
      reflexivity.
Defined.


(** * Further properties of the routes *)

Lemma filter_none_hit {A : Type} (f : A -> bool) (l : list A) :
  Nat.eqb (length (filter f l)) 0 = true -> forall x, In x l -> f x = false.
Proof.
  intros H x Hx. apply Nat.eqb_eq in H.
  destruct (f x) eqn:E; [|reflexivity].
  assert (Hin : In x (filter f l)) by (apply filter_In; tauto).
  destruct (filter f l); [contradiction|discriminate].
Qed.

Lemma truthy_text (f : Field) : truthy f = true -> text f <> "".
Proof.
  destruct f as [| |s]; simpl; try discriminate.
  intros H E. subst s. discriminate.
Qed.

Lemma find_the_one {A : Type} (p : A -> bool) (l : list A) (t : A) :
  In t l -> p t = true -> (forall x, In x l -> p x = true -> x = t) ->
  find p l = Some t.
Proof.
  induction l as [|a l IH]; simpl; intros Hin Hp Huniq; [contradiction|].
  destruct (p a) eqn:E.
  - f_equal. apply Huniq; [now left|assumption].
  - destruct Hin as [->|Hin]; [congruence|].
    apply IH; try assumption. intros x Hx. apply Huniq. now right.
Qed.

Lemma order_by_newest_last (l : list Task) (t : Task) :
  Forall (fun x => t_created_at x < t_created_at t) l ->
  order_by_created_at_desc (l ++ [t]) = t :: order_by_created_at_desc l.
Proof.
  intros H. induction H as [|a l Ha H IH]; [reflexivity|].
  change (order_by_created_at_desc ((a :: l) ++ [t]))
    with (insert_desc a (order_by_created_at_desc (l ++ [t]))).
  rewrite IH.
  change (order_by_created_at_desc (a :: l))
    with (insert_desc a (order_by_created_at_desc l)).
  simpl.
  replace (t_created_at a >=? t_created_at t) with false; [reflexivity|].
  symmetry. rewrite Z.geb_leb. apply Z.leb_gt. lia.
Qed.

Section Coverage.

Variable bcrypt_hash : string -> string -> string.
Variable bcrypt_compare : string -> string -> bool.
Variable jwt_encode : Claims -> string -> string.
Variable jwt_decode : string -> string -> option Claims.
Variable text_as_integer : string -> option Z.

Hypothesis bcrypt_compare_hash :
  forall data salt, bcrypt_compare data (bcrypt_hash data salt) = true.
Hypothesis jwt_decode_encode :
  forall c key, jwt_decode (jwt_encode c key) key = Some c.

Local Abbreviation jwt_sign := (jwt_sign jwt_encode).
Local Abbreviation jwt_verify := (jwt_verify jwt_decode).
Local Abbreviation authenticateToken := (authenticateToken jwt_decode).
Local Abbreviation signup := (signup bcrypt_hash jwt_encode).
Local Abbreviation login := (login bcrypt_compare jwt_encode).
Local Abbreviation id_is := (id_is text_as_integer).
Local Abbreviation owned := (owned text_as_integer).
Local Abbreviation getTask := (getTask text_as_integer).
Local Abbreviation updateTask := (updateTask text_as_integer).
Local Abbreviation deleteTask := (deleteTask text_as_integer).
Local Abbreviation guarded := (guarded jwt_decode).
Local Abbreviation handle :=
  (handle bcrypt_hash bcrypt_compare jwt_encode jwt_decode text_as_integer).
Local Abbreviation run :=
  (run bcrypt_hash bcrypt_compare jwt_encode jwt_decode text_as_integer).
Local Abbreviation signup_json := (signup_json bcrypt_hash jwt_encode).
Local Abbreviation login_json := (login_json bcrypt_compare jwt_encode).
Local Abbreviation handle_json :=
  (handle_json bcrypt_hash bcrypt_compare jwt_encode jwt_decode text_as_integer).
Local Abbreviation run_json :=
  (run_json bcrypt_hash bcrypt_compare jwt_encode jwt_decode text_as_integer).

(** ** Statuses and effects *)

Lemma guard_rejects (now : Z) (authorization : option string) (res : Response) :
  authenticateToken now authorization = Reject res ->
  res_status res = 401 \/ res_status res = 403.
Proof.
  unfold authenticateToken.
  destruct (negb (truthy (bearer authorization))); [intros [= <-]; now left|].
  destruct (jwt_verify _ JWT_SECRET now); [discriminate|intros [= <-]; now right].
Qed.

Lemma updateTask_miss_db (db : DB) (user : Claims) (param : string) (b : Body) (now : Z) :
  Nat.eqb (length (filter (owned param user) (tasks db))) 0 = true ->
  {| users := users db; users_seq := users_seq db;
     tasks := map (fun t => if owned param user t then set_task b now t else t) (tasks db);
     tasks_seq := tasks_seq db |} = db.
Proof.
  intros H. rewrite map_if_all_false by now apply filter_none_hit.
  apply db_eta.
Qed.

Lemma deleteTask_miss_db (db : DB) (user : Claims) (param : string) :
  Nat.eqb (length (filter (owned param user) (tasks db))) 0 = true ->
  {| users := users db; users_seq := users_seq db;
     tasks := filter (fun t => negb (owned param user t)) (tasks db);
     tasks_seq := tasks_seq db |} = db.
Proof.
  intros H. rewrite filter_negb_all_false by now apply filter_none_hit.
  apply db_eta.
Qed.

(** With the password a string, null or absent: every answer is 200 or 201,
    or else it is one of 400, 401, 403, 404 and 409 and the database is
    exactly as before the request. *)
Lemma failed_requests_change_nothing (now : Z) (db : DB) (req : Request) :
  (res_status (fst (handle now db req)) = 200
   \/ res_status (fst (handle now db req)) = 201)
  \/ (snd (handle now db req) = db
      /\ In (res_status (fst (handle now db req))) [400; 401; 403; 404; 409]).
Proof.
  destruct req; simpl; unfold guarded;
    try (destruct (authenticateToken now authorization) as [res|user] eqn:G;
         [right; split; [reflexivity|]; simpl;
          destruct (guard_rejects _ _ _ G) as [E|E]; rewrite E; tauto|]).
  - unfold signup.
    destruct (negb (truthy (email b)) || negb (truthy (password b))
              || negb (truthy (name b))); [right; simpl; tauto|].
    destruct (email_taken (text (email b)) (users db)); [right; simpl; tauto|].
    left. now right.
  - unfold login.
    destruct (negb (truthy (email b)) || negb (truthy (password b)));
      [right; simpl; tauto|].
    destruct (find _ (users db)) as [u|]; [|right; simpl; tauto].
    destruct (negb (bcrypt_compare (text (password b)) (u_password u)));
      [right; simpl; tauto|left; now left].
  - unfold getProfile.
    destruct (find _ (users db)); [left; now left|right; simpl; tauto].
  - unfold updateProfile.
    destruct (negb (truthy (name b)) && negb (truthy (email b)));
      [right; simpl; tauto|].
    destruct (truthy (email b) && email_collides (c_id user) (text (email b)) (users db));
      [right; simpl; tauto|left; now left].
  - unfold createTask.
    destruct (negb (truthy (title b))); [right; simpl; tauto|left; now right].
  - left. now left.
  - unfold getTask.
    destruct (find _ (tasks db)); [left; now left|right; simpl; tauto].
  - unfold updateTask.
    destruct (negb (truthy (title b)) && negb (truthy (description b))
              && negb (truthy (status b))); [right; simpl; tauto|].
    destruct (Nat.eqb _ 0) eqn:E; [|left; now left].
    right. simpl. rewrite updateTask_miss_db by assumption. tauto.
  - unfold deleteTask.
    destruct (Nat.eqb _ 0) eqn:E; [|left; now left].
    right. simpl. rewrite deleteTask_miss_db by assumption. tauto.
Qed.

(** ** One user's task routes and another user's tasks *)

Lemma owned_owner (user : Claims) (param : string) (t : Task) :
  owned param user t = true -> id_is param (t_id t) = true /\ t_user_id t = c_id user.
Proof.
  unfold owned. intros H. apply andb_prop in H. now rewrite Z.eqb_eq in H.
Qed.

Lemma not_mine (A B : Claims) (t : Task) :
  c_id A <> c_id B -> t_user_id t = c_id B -> Z.eqb (t_user_id t) (c_id A) = false.
Proof. intros Hne E. apply Z.eqb_neq. congruence. Qed.

Lemma mine_after_update (A B : Claims) (param : string) (b : Body) (now : Z) (l : list Task) :
  c_id A <> c_id B ->
  filter (fun t => Z.eqb (t_user_id t) (c_id A))
         (map (fun t => if owned param B t then set_task b now t else t) l)
  = filter (fun t => Z.eqb (t_user_id t) (c_id A)) l.
Proof.
  intros Hne. induction l as [|t l IH]; simpl; [reflexivity|].
  rewrite IH. destruct (owned param B t) eqn:E; [|reflexivity].
  apply owned_owner in E. destruct E as [_ E]. simpl.
  now rewrite (not_mine A B t Hne E).
Qed.

Lemma mine_after_delete (A B : Claims) (param : string) (l : list Task) :
  c_id A <> c_id B ->
  filter (fun t => Z.eqb (t_user_id t) (c_id A))
         (filter (fun t => negb (owned param B t)) l)
  = filter (fun t => Z.eqb (t_user_id t) (c_id A)) l.
Proof.
  intros Hne. induction l as [|t l IH]; simpl; [reflexivity|].
  destruct (owned param B t) eqn:E; simpl; rewrite IH; [|reflexivity].
  apply owned_owner in E. destruct E as [_ E].
  now rewrite (not_mine A B t Hne E).
Qed.

(** X2.  Whatever B does through the task routes, creating, updating or deleting
    with any id and any body, the rows A owns stay the same rows in the same
    order, and [listTasks] answers A exactly as before. *)
Theorem task_routes_leave_other_users_rows
        (A B : Claims) (db : DB) (param : string) (b : Body) (now : Z) :
  c_id A <> c_id B ->
  (mine A (snd (createTask db B b now)) = mine A db
   /\ fst (listTasks (snd (createTask db B b now)) A) = fst (listTasks db A))
  /\ (mine A (snd (updateTask db B param b now)) = mine A db
      /\ fst (listTasks (snd (updateTask db B param b now)) A) = fst (listTasks db A))
  /\ (mine A (snd (deleteTask db B param)) = mine A db
      /\ fst (listTasks (snd (deleteTask db B param)) A) = fst (listTasks db A)).
Proof.
  intros Hne.
  assert (Hlist : forall db', mine A db' = mine A db ->
                              fst (listTasks db' A) = fst (listTasks db A)).
  { intros db' E. unfold listTasks, mine in *. simpl. now rewrite E. }
  assert (Hc : mine A (snd (createTask db B b now)) = mine A db).
  { unfold mine, createTask. destruct (negb (truthy (title b))); [reflexivity|].
    simpl. rewrite filter_app. simpl.
    replace (Z.eqb (c_id B) (c_id A)) with false
      by (symmetry; apply Z.eqb_neq; congruence).
    apply app_nil_r. }
  assert (Hu : mine A (snd (updateTask db B param b now)) = mine A db).
  { unfold mine, updateTask.
    destruct (negb (truthy (title b)) && negb (truthy (description b))
              && negb (truthy (status b))); [reflexivity|].
    destruct (Nat.eqb _ 0); simpl; now apply mine_after_update. }
  assert (Hd : mine A (snd (deleteTask db B param)) = mine A db).
  { unfold mine, deleteTask.
    destruct (Nat.eqb _ 0); simpl; now apply mine_after_delete. }
  repeat split; auto.
Qed.

(** ** E-mail addresses stay unique *)

Lemma email_free_notin (e : string) (l : list User) :
  email_taken e l = false -> ~ In e (map u_email l).
Proof.
  intros H Hin. apply in_map_iff in Hin. destruct Hin as (u & E & Hu).
  enough (email_taken e l = true) by congruence.
  apply existsb_exists. exists u. split; [assumption|]. now apply String.eqb_eq.
Qed.

Lemma no_collision (uid : Z) (e : string) (l : list User) :
  existsb (fun u => negb (Z.eqb (u_id u) uid) && String.eqb (u_email u) e) l = false ->
  forall u, In u l -> u_id u <> uid -> u_email u <> e.
Proof.
  intros H u Hu Hid E.
  enough (existsb (fun u => negb (Z.eqb (u_id u) uid) && String.eqb (u_email u) e) l = true)
    by congruence.
  apply existsb_exists. exists u. split; [assumption|].
  apply andb_true_intro. split.
  - apply negb_true_iff. now apply Z.eqb_neq.
  - now apply String.eqb_eq.
Qed.

Lemma set_email_unique (b : Body) (uid : Z) (l : list User) :
  truthy (email b) = true ->
  NoDup (map u_id l) -> NoDup (map u_email l) ->
  (forall u, In u l -> u_id u <> uid -> u_email u <> text (email b)) ->
  NoDup (map u_email (map (fun u => if Z.eqb (u_id u) uid then set_user b u else u) l)).
Proof.
  intros Hb. induction l as [|a l IH]; simpl; intros Hid Hem Hfree; [constructor|].
  inversion Hid as [|? ? Hid1 Hid2]; subst.
  inversion Hem as [|? ? Hem1 Hem2]; subst.
  destruct (Z.eqb (u_id a) uid) eqn:E.
  - apply Z.eqb_eq in E. subst uid.
    assert (Hothers : forall u, In u l -> Z.eqb (u_id u) (u_id a) = false).
    { intros u Hu. apply Z.eqb_neq. intros E. apply Hid1. rewrite <- E.
      now apply in_map. }
    rewrite map_if_all_false by assumption. simpl. rewrite Hb.
    constructor; [|assumption].
    intros Hin. apply in_map_iff in Hin. destruct Hin as (u & Eu & Hu).
    apply (Hfree u); [now right| |assumption].
    specialize (Hothers u Hu). now apply Z.eqb_neq in Hothers.
  - apply Z.eqb_neq in E. constructor.
    + intros Hin. apply in_map_iff in Hin. destruct Hin as (v & Ev & Hv).
      apply in_map_iff in Hv. destruct Hv as (u & <- & Hu).
      destruct (Z.eqb (u_id u) uid) eqn:Eu.
      * simpl in Ev. rewrite Hb in Ev.
        apply (Hfree a); [now left|assumption|now symmetry].
      * apply Hem1. rewrite <- Ev. now apply in_map.
    + apply IH; try assumption. intros u Hu. apply Hfree. now right.
Qed.

Lemma signup_emails (db : DB) (b : Body) (salt : string) (now : Z) :
  emails_unique db -> emails_unique (snd (signup db b salt now)).
Proof.
  unfold emails_unique, signup. intros H.
  destruct (negb (truthy (email b)) || negb (truthy (password b))
            || negb (truthy (name b))); [assumption|].
  destruct (email_taken (text (email b)) (users db)) eqn:E; [assumption|].
  simpl. rewrite map_app. simpl.
  apply NoDup_snoc; [assumption|now apply email_free_notin].
Qed.

Lemma updateProfile_emails (db : DB) (user : Claims) (b : Body) :
  wf db -> emails_unique db -> emails_unique (snd (updateProfile db user b)).
Proof.
  unfold emails_unique, updateProfile. intros [_ Hid] H.
  destruct (negb (truthy (name b)) && negb (truthy (email b))); [assumption|].
  destruct (truthy (email b)) eqn:T; simpl andb.
  - destruct (email_collides (c_id user) (text (email b)) (users db)) eqn:C;
      [assumption|].
    simpl. unfold email_collides in C. apply andb_false_iff in C.
    destruct C as [C|C].
    + rewrite map_if_all_false; [assumption|].
      intros u Hu. destruct (Z.eqb (u_id u) (c_id user)) eqn:E; [|reflexivity].
      rewrite <- C. symmetry. apply existsb_exists. now exists u.
    + apply set_email_unique; try assumption. now apply no_collision.
  - simpl. rewrite (map_key_if u_email); [assumption|].
    intros u. simpl. now rewrite T.
Qed.

Lemma handle_emails (now : Z) (db : DB) (req : Request) :
  wf db -> emails_unique db -> emails_unique (snd (handle now db req)).
Proof.
  intros Hwf H.
  destruct req; simpl; unfold guarded;
    try (destruct (authenticateToken now authorization) as [res|user]; [exact H|]).
  - now apply signup_emails.
  - now rewrite (login_db bcrypt_compare jwt_encode).
  - now rewrite getProfile_db.
  - now apply updateProfile_emails.
  - unfold createTask. now destruct (negb (truthy (title b))).
  - exact H.
  - now rewrite (getTask_db text_as_integer).
  - unfold updateTask.
    destruct (negb (truthy (title b)) && negb (truthy (description b))
              && negb (truthy (status b))); [assumption|].
    now destruct (Nat.eqb _ 0).
  - unfold deleteTask. now destruct (Nat.eqb _ 0).
Qed.

(** X3.  However many requests are served, in whatever order, no two user rows
    ever hold the same e-mail (given that none did at the start and the
    primary keys were distinct). *)
Theorem emails_stay_unique (reqs : list (Z * Request)) (db : DB) :
  wf db -> emails_unique db -> emails_unique (run db reqs).
Proof.
  revert db. induction reqs as [|[now req] reqs IH]; intros db Hwf H; simpl.
  - exact H.
  - apply IH.
    + now apply (handle_wf bcrypt_hash bcrypt_compare jwt_encode jwt_decode
                           text_as_integer).
    + now apply handle_emails.
Qed.

(** ** Ids are never handed out twice *)

Lemma lastID_gt (seq : Z) (ids : list Z) : seq < lastID seq ids.
Proof. unfold lastID. lia. Qed.

Lemma lastID_above (seq : Z) (ids : list Z) (x : Z) : In x ids -> x < lastID seq ids.
Proof. intros H. apply max_id_ge in H. unfold lastID. lia. Qed.

Lemma Forall_map_if {A : Type} (P : A -> Prop) (f : A -> bool) (g : A -> A) (l : list A) :
  (forall x, P x -> P (g x)) -> Forall P l ->
  Forall P (map (fun x => if f x then g x else x) l).
Proof.
  intros Hg H. induction H as [|x l Hx H IH]; simpl; constructor; [|assumption].
  destruct (f x); auto.
Qed.

Lemma Forall_filter_keep {A : Type} (P : A -> Prop) (f : A -> bool) (l : list A) :
  Forall P l -> Forall P (filter f l).
Proof.
  intros H. induction H as [|x l Hx H IH]; simpl; [constructor|].
  destruct (f x); [constructor|]; assumption.
Qed.

Lemma handle_seq (now : Z) (db : DB) (req : Request) :
  seq_ok db ->
  seq_ok (snd (handle now db req))
  /\ tasks_seq db <= tasks_seq (snd (handle now db req))
  /\ users_seq db <= users_seq (snd (handle now db req)).
Proof.
  intros Hok. assert (Hsame : seq_ok db /\ tasks_seq db <= tasks_seq db
                              /\ users_seq db <= users_seq db) by (repeat split; try lia; apply Hok).
  destruct Hok as [Ht Hu].
  destruct req; simpl; unfold guarded;
    try (destruct (authenticateToken now authorization) as [res|user]; [exact Hsame|]).
  - unfold signup.
    destruct (negb (truthy (email b)) || negb (truthy (password b))
              || negb (truthy (name b))); [exact Hsame|].
    destruct (email_taken (text (email b)) (users db)); [exact Hsame|].
    pose proof (lastID_gt (users_seq db) (map u_id (users db))) as Hgt.
    simpl. repeat split; [assumption| |lia|lia].
    apply Forall_app. split; [|repeat constructor; simpl; lia].
    eapply Forall_impl; [|exact Hu]. simpl. intros u Hle. lia.
  - now rewrite (login_db bcrypt_compare jwt_encode).
  - now rewrite getProfile_db.
  - unfold updateProfile.
    destruct (negb (truthy (name b)) && negb (truthy (email b))); [exact Hsame|].
    destruct (truthy (email b) && email_collides (c_id user) (text (email b)) (users db));
      [exact Hsame|].
    simpl. repeat split; [assumption| |lia|lia].
    apply Forall_map_if; [|exact Hu]. now intros u Hle.
  - unfold createTask. destruct (negb (truthy (title b))); [exact Hsame|].
    pose proof (lastID_gt (tasks_seq db) (map t_id (tasks db))) as Hgt.
    simpl. repeat split; [|assumption|lia|lia].
    apply Forall_app. split; [|repeat constructor; simpl; lia].
    eapply Forall_impl; [|exact Ht]. simpl. intros t Hle. lia.
  - exact Hsame.
  - now rewrite (getTask_db text_as_integer).
  - unfold updateTask.
    destruct (negb (truthy (title b)) && negb (truthy (description b))
              && negb (truthy (status b))); [exact Hsame|].
    destruct (Nat.eqb _ 0); simpl; (repeat split; [|assumption|lia|lia]);
      (apply Forall_map_if; [|exact Ht]); now intros t Hle.
  - unfold deleteTask.
    destruct (Nat.eqb _ 0); simpl; (repeat split; [|assumption|lia|lia]);
      now apply Forall_filter_keep.
Qed.

Lemma run_seq (reqs : list (Z * Request)) (db : DB) :
  seq_ok db ->
  seq_ok (run db reqs)
  /\ tasks_seq db <= tasks_seq (run db reqs)
  /\ users_seq db <= users_seq (run db reqs).
Proof.
  revert db. induction reqs as [|[now req] reqs IH]; intros db Hok; simpl.
  - repeat split; try lia; apply Hok.
  - destruct (handle_seq now db req Hok) as (Hok' & Ht & Hu).
    destruct (IH _ Hok') as (Hok'' & Ht' & Hu'). repeat split; try lia; apply Hok''.
Qed.

(** X4.  AUTOINCREMENT: a task created after any further requests, deletions
    included, gets an id above the counter as it stands now, so above every
    id handed out so far whether its task still exists or not; the answer
    carries that id. *)
Theorem task_ids_are_never_reused
        (db : DB) (reqs : list (Z * Request)) (user : Claims) (b : Body) (now : Z) :
  seq_ok db -> truthy (title b) = true ->
  exists t,
    tasks (snd (createTask (run db reqs) user b now)) = (tasks (run db reqs) ++ [t])%list
    /\ tasks_seq db < t_id t
    /\ (forall x, In x (tasks db) -> t_id x < t_id t)
    /\ (forall x, In x (tasks (run db reqs)) -> t_id x < t_id t)
    /\ res_status (fst (createTask (run db reqs) user b now)) = 201
    /\ get "task" (res_json (fst (createTask (run db reqs) user b now))) = task_row t.
Proof.
  intros Hok Hb.
  destruct (run_seq reqs db Hok) as ((Ht' & _) & Hle & _).
  set (db' := run db reqs) in *.
  unfold createTask. rewrite Hb. simpl negb. cbv iota.
  pose proof (lastID_gt (tasks_seq db') (map t_id (tasks db'))) as Hgt.
  eexists. split; [reflexivity|]. simpl t_id.
  split; [lia|]. split; [|split; [|split; [reflexivity|]]].
  - intros x Hx. destruct Hok as [Ht _].
    rewrite Forall_forall in Ht. specialize (Ht x Hx). lia.
  - intros x Hx. apply lastID_above. now apply in_map.
  - simpl. rewrite find_app_none.
    + simpl. now rewrite Z.eqb_refl.
    + apply find_all_false. intros x Hx. apply Z.eqb_neq.
      pose proof (lastID_above (tasks_seq db') (map t_id (tasks db')) (t_id x)
                               (in_map t_id _ _ Hx)). lia.
Qed.

(** ** Required fields are never empty *)

Lemma handle_nonempty (now : Z) (db : DB) (req : Request) :
  nonempty_fields db -> nonempty_fields (snd (handle now db req)).
Proof.
  intros H. pose proof H as [Hu Ht].
  destruct req; simpl; unfold guarded;
    try (destruct (authenticateToken now authorization) as [res|user]; [exact H|]).
  - unfold signup.
    destruct (truthy (email b)) eqn:Te; [|exact H].
    destruct (truthy (password b)) eqn:Tp; [|exact H].
    destruct (truthy (name b)) eqn:Tn; [|exact H]. simpl.
    destruct (email_taken (text (email b)) (users db)); [exact H|].
    split; simpl; [|assumption].
    apply Forall_app. split; [assumption|].
    repeat constructor; simpl; now apply truthy_text.
  - now rewrite (login_db bcrypt_compare jwt_encode).
  - now rewrite getProfile_db.
  - unfold updateProfile.
    destruct (negb (truthy (name b)) && negb (truthy (email b))); [exact H|].
    destruct (truthy (email b) && email_collides (c_id user) (text (email b)) (users db));
      [exact H|].
    split; simpl; [|assumption].
    apply Forall_map_if; [|assumption].
    intros u [He Hn]. simpl. split.
    + destruct (truthy (email b)) eqn:T; [now apply truthy_text|assumption].
    + destruct (truthy (name b)) eqn:T; [now apply truthy_text|assumption].
  - unfold createTask.
    destruct (truthy (title b)) eqn:T; [|exact H]. simpl.
    split; simpl; [assumption|].
    apply Forall_app. split; [assumption|].
    repeat constructor; simpl; [now apply truthy_text|].
    destruct (truthy (status b)) eqn:Ts; [now apply truthy_text|discriminate].
  - exact H.
  - now rewrite (getTask_db text_as_integer).
  - unfold updateTask.
    destruct (negb (truthy (title b)) && negb (truthy (description b))
              && negb (truthy (status b))); [exact H|].
    assert (Ht' : Forall (fun t => t_title t <> "" /\ t_status t <> "")
                         (map (fun t => if owned param user t then set_task b now t else t)
                              (tasks db))).
    { apply Forall_map_if; [|assumption].
      intros t [Hti Hst]. simpl. split.
      - destruct (truthy (title b)) eqn:T; [now apply truthy_text|assumption].
      - destruct (truthy (status b)) eqn:T; [now apply truthy_text|assumption]. }
    destruct (Nat.eqb _ 0); now split.
  - unfold deleteTask.
    destruct (Nat.eqb _ 0); (split; simpl; [assumption|]);
      now apply Forall_filter_keep.
Qed.

(** ** Timestamps *)

Lemma handle_stamped (clock now : Z) (db : DB) (req : Request) :
  stamped clock db -> clock <= now -> stamped now (snd (handle now db req)).
Proof.
  unfold stamped. intros H Hle.
  assert (Hold : Forall (fun t => t_created_at t <= t_updated_at t /\ t_updated_at t <= now)
                        (tasks db))
    by (eapply Forall_impl; [|exact H]; simpl; intros t [? ?]; lia).
  destruct req; simpl; unfold guarded;
    try (destruct (authenticateToken now authorization) as [res|user]; [exact Hold|]).
  - unfold signup.
    destruct (negb (truthy (email b)) || negb (truthy (password b))
              || negb (truthy (name b))); [exact Hold|].
    now destruct (email_taken (text (email b)) (users db)).
  - now rewrite (login_db bcrypt_compare jwt_encode).
  - now rewrite getProfile_db.
  - unfold updateProfile.
    destruct (negb (truthy (name b)) && negb (truthy (email b))); [exact Hold|].
    now destruct (truthy (email b) && email_collides (c_id user) (text (email b)) (users db)).
  - unfold createTask. destruct (negb (truthy (title b))); [exact Hold|]. simpl.
    apply Forall_app. split; [assumption|]. repeat constructor; simpl; lia.
  - exact Hold.
  - now rewrite (getTask_db text_as_integer).
  - unfold updateTask.
    destruct (negb (truthy (title b)) && negb (truthy (description b))
              && negb (truthy (status b))); [exact Hold|].
    assert (Hnew : Forall (fun t => t_created_at t <= t_updated_at t /\ t_updated_at t <= now)
                          (map (fun t => if owned param user t then set_task b now t else t)
                               (tasks db))).
    { clear Hold. induction H as [|t l [Hc Hu] Hl IH]; simpl; constructor; [|assumption].
      destruct (owned param user t); simpl; lia. }
    now destruct (Nat.eqb _ 0).
  - unfold deleteTask. destruct (Nat.eqb _ 0); simpl; now apply Forall_filter_keep.
Qed.

(** X6.  As long as the clock never goes back, every task's [updated_at] is at or
    after its [created_at] and at or before the clock of the last request. *)
Theorem updated_at_follows_created_at
        (reqs : list (Z * Request)) (clock : Z) (db : DB) :
  stamped clock db -> clock_monotone clock reqs ->
  stamped (last_clock clock reqs) (run db reqs).
Proof.
  revert clock db. induction reqs as [|[now req] reqs IH]; intros clock db H Hm; simpl.
  - exact H.
  - destruct Hm as [Hle Hm]. apply IH; [|assumption].
    now apply handle_stamped with (clock := clock).
Qed.

(** ** Create, read, update, delete *)

Lemma createTask_inserted (db : DB) (user : Claims) (b : Body) (now : Z) :
  truthy (title b) = true ->
  createTask db user b now
  = ({| res_status := 201;
        res_json := JObj [("message", JStr "Task created successfully");
                          ("task", task_row (inserted_task db user b now))] |},
     {| users := users db; users_seq := users_seq db;
        tasks := tasks db ++ [inserted_task db user b now];
        tasks_seq := t_id (inserted_task db user b now) |}).
Proof.
  intros Hb. unfold createTask. rewrite Hb. simpl negb. cbv iota.
  fold (inserted_task db user b now).
  rewrite find_app_none.
  - simpl find. unfold inserted_task at 1. simpl t_id. now rewrite Z.eqb_refl.
  - apply find_all_false. intros x Hx. apply Z.eqb_neq.
    pose proof (lastID_above (tasks_seq db) (map t_id (tasks db)) (t_id x)
                             (in_map t_id _ _ Hx)). lia.
Qed.

(** X7.  A task created with a title is answered 201 with the stored row: owner
    the caller, status 'pending' and description null unless the body
    carries non-empty ones, both timestamps the clock.  The owner then gets
    that same row from [getTask] under its id, and nothing else in the
    tables has changed. *)
Theorem created_task_can_be_fetched (db : DB) (user : Claims) (b : Body) (now : Z) :
  truthy (title b) = true ->
  exists t,
    fst (createTask db user b now)
    = {| res_status := 201;
         res_json := JObj [("message", JStr "Task created successfully");
                           ("task", task_row t)] |}
    /\ tasks (snd (createTask db user b now)) = (tasks db ++ [t])%list
    /\ users (snd (createTask db user b now)) = users db
    /\ t_user_id t = c_id user /\ t_title t = text (title b)
    /\ t_status t = (if truthy (status b) then text (status b) else "pending")
    /\ t_description t
       = (if truthy (description b) then Some (text (description b)) else None)
    /\ t_created_at t = now /\ t_updated_at t = now
    /\ forall param,
        id_is param (t_id t) = true ->
        getTask (snd (createTask db user b now)) user param
        = ({| res_status := 200; res_json := JObj [("task", task_row t)] |},
           snd (createTask db user b now)).
Proof.
  intros Hb. exists (inserted_task db user b now).
  rewrite (createTask_inserted db user b now Hb). simpl fst. simpl snd.
  repeat (split; [reflexivity|]).
  intros param Hid. unfold getTask. simpl tasks.
  rewrite find_app_none.
  - simpl find. unfold owned. rewrite Hid. simpl. now rewrite Z.eqb_refl.
  - apply find_all_false. intros x Hx. unfold owned.
    destruct (id_is param (t_id x)) eqn:E; [|reflexivity]. exfalso.
    pose proof (id_is_same text_as_integer param _ _ E Hid) as Eid.
    pose proof (lastID_above (tasks_seq db) (map t_id (tasks db)) (t_id x)
                             (in_map t_id _ _ Hx)) as Hlt.
    simpl in Eid. lia.
Qed.

Lemma owned_unique (db : DB) (user : Claims) (param : string) (t : Task) :
  wf db -> In t (tasks db) -> id_is param (t_id t) = true ->
  forall x, In x (tasks db) -> id_is param (t_id x) = true -> x = t.
Proof.
  intros [Hnd _] Hin Hid x Hx Hx'.
  apply (NoDup_map_In_inj t_id (tasks db)); try assumption.
  exact (id_is_same text_as_integer param _ _ Hx' Hid).
Qed.

Lemma hit_nonzero {A : Type} (f : A -> bool) (l : list A) (t : A) :
  In t l -> f t = true -> Nat.eqb (length (filter f l)) 0 = false.
Proof.
  intros Hin Hf. apply Nat.eqb_neq. intros E.
  assert (H : In t (filter f l)) by (apply filter_In; split; assumption).
  destruct (filter f l); [contradiction|discriminate].
Qed.

Lemma updateTask_hit
      (db : DB) (user : Claims) (param : string) (b : Body) (now : Z) (t : Task) :
  wf db -> In t (tasks db) -> owned param user t = true ->
  truthy (title b) || truthy (description b) || truthy (status b) = true ->
  updateTask db user param b now
  = ({| res_status := 200;
        res_json := JObj [("message", JStr "Task updated successfully");
                          ("task", task_row (set_task b now t))] |},
     {| users := users db; users_seq := users_seq db;
        tasks := map (fun x => if owned param user x then set_task b now x else x)
                     (tasks db);
        tasks_seq := tasks_seq db |})
  /\ In (set_task b now t)
        (map (fun x => if owned param user x then set_task b now x else x) (tasks db))
  /\ (forall x,
        In x (map (fun x => if owned param user x then set_task b now x else x) (tasks db)) ->
        id_is param (t_id x) = true -> x = set_task b now t).
Proof.
  intros Hwf Hin Hown Hb.
  destruct (owned_owner user param t Hown) as [Hid Huser].
  set (f := fun x => if owned param user x then set_task b now x else x).
  assert (Hft : f t = set_task b now t) by (unfold f; now rewrite Hown).
  assert (Hinf : In (set_task b now t) (map f (tasks db)))
    by (rewrite <- Hft; now apply in_map).
  assert (Huniq : forall x, In x (map f (tasks db)) -> id_is param (t_id x) = true ->
                            x = set_task b now t).
  { intros x Hx Hx'. apply in_map_iff in Hx. destruct Hx as (y & <- & Hy).
    assert (Ey : t_id (f y) = t_id y) by (unfold f; now destruct (owned param user y)).
    rewrite Ey in Hx'.
    rewrite (owned_unique db user param t Hwf Hin Hid y Hy Hx'). exact Hft. }
  split; [|split; assumption].
  unfold updateTask.
  replace (negb (truthy (title b)) && negb (truthy (description b))
           && negb (truthy (status b))) with false
    by (destruct (truthy (title b)), (truthy (description b)), (truthy (status b));
        simpl in *; congruence).
  rewrite (hit_nonzero _ _ t Hin Hown). fold f.
  now rewrite (find_the_one (fun x => id_is param (t_id x)) _ _ Hinf Hid Huniq).
Qed.

(** X8.  An update by the owner with a usable body is answered 200 with the row
    as rewritten by the body; the table keeps its length, the other rows
    are as they were, and [getTask] then returns the rewritten row. *)
Theorem updated_task_is_returned
        (db : DB) (user : Claims) (param : string) (b : Body) (now : Z) (t : Task) :
  wf db -> In t (tasks db) -> owned param user t = true ->
  truthy (title b) || truthy (description b) || truthy (status b) = true ->
  fst (updateTask db user param b now)
  = {| res_status := 200;
       res_json := JObj [("message", JStr "Task updated successfully");
                         ("task", task_row (set_task b now t))] |}
  /\ getTask (snd (updateTask db user param b now)) user param
     = ({| res_status := 200;
           res_json := JObj [("task", task_row (set_task b now t))] |},
        snd (updateTask db user param b now))
  /\ In (set_task b now t) (tasks (snd (updateTask db user param b now)))
  /\ length (tasks (snd (updateTask db user param b now))) = length (tasks db)
  /\ (forall x, In x (tasks db) -> x <> t ->
                In x (tasks (snd (updateTask db user param b now)))).
Proof.
  intros Hwf Hin Hown Hb.
  destruct (owned_owner user param t Hown) as [Hid Huser].
  destruct (updateTask_hit db user param b now t Hwf Hin Hown Hb) as (E & Hinf & Huniq).
  rewrite E. simpl fst. simpl snd. simpl tasks.
  assert (Hown' : owned param user (set_task b now t) = true) by exact Hown.
  split; [reflexivity|]. split; [|split; [exact Hinf|split]].
  - unfold getTask. simpl tasks.
    rewrite (find_the_one (owned param user) _ (set_task b now t) Hinf Hown');
      [reflexivity|].
    intros x Hx Hx'. apply Huniq; [assumption|].
    now destruct (owned_owner user param x Hx').
  - apply length_map.
  - intros x Hx Hne. apply in_map_iff. exists x. split; [|assumption].
    destruct (owned param user x) eqn:Ex; [|reflexivity].
    exfalso. apply Hne.
    destruct (owned_owner user param x Ex) as [Hidx _].
    exact (owned_unique db user param t Hwf Hin Hid x Hx Hidx).
Qed.

(** X9.  A delete by the owner is answered 200 and removes that row and no other;
    users are untouched; the same id is 'Task not found' afterwards, for
    [getTask] and for a second [deleteTask] alike. *)
Theorem deleted_task_is_gone
        (db : DB) (user : Claims) (param : string) (t : Task) :
  wf db -> In t (tasks db) -> owned param user t = true ->
  fst (deleteTask db user param)
  = {| res_status := 200;
       res_json := JObj [("message", JStr "Task deleted successfully")] |}
  /\ (forall x, In x (tasks (snd (deleteTask db user param)))
                <-> In x (tasks db) /\ x <> t)
  /\ users (snd (deleteTask db user param)) = users db
  /\ getTask (snd (deleteTask db user param)) user param
     = (error 404 "Task not found", snd (deleteTask db user param))
  /\ deleteTask (snd (deleteTask db user param)) user param
     = (error 404 "Task not found", snd (deleteTask db user param)).
Proof.
  intros Hwf Hin Hown.
  destruct (owned_owner user param t Hown) as [Hid Huser].
  set (db' := {| users := users db; users_seq := users_seq db;
                 tasks := filter (fun x => negb (owned param user x)) (tasks db);
                 tasks_seq := tasks_seq db |}).
  assert (E : deleteTask db user param
              = ({| res_status := 200;
                    res_json := JObj [("message", JStr "Task deleted successfully")] |},
                 db'))
    by (unfold deleteTask; now rewrite (hit_nonzero _ _ t Hin Hown)).
  rewrite E. simpl fst. simpl snd.
  assert (Hgone : forall x, In x (tasks db') -> owned param user x = false).
  { intros x Hx. simpl in Hx. apply filter_In in Hx.
    now apply negb_true_iff. }
  split; [reflexivity|]. split; [|split; [reflexivity|split]].
  - intros x. simpl tasks. rewrite filter_In, negb_true_iff. split.
    + intros [Hx Hno]. split; [assumption|]. intros ->. congruence.
    + intros [Hx Hne]. split; [assumption|].
      destruct (owned param user x) eqn:Ex; [|reflexivity].
      exfalso. apply Hne.
      destruct (owned_owner user param x Ex) as [Hidx _].
      exact (owned_unique db user param t Hwf Hin Hid x Hx Hidx).
  - now apply (getTask_not_owned text_as_integer).
  - now apply (deleteTask_not_owned text_as_integer).
Qed.

(** X10.  A body that only clears the description, with [null] or with the empty
    string, is turned away with 400 although it carries a field; together
    with a title the same body is accepted and the stored description
    becomes NULL or empty. *)
Theorem description_is_cleared_only_with_another_field
        (db : DB) (user : Claims) (param : string) (b : Body) (now : Z) (t : Task) :
  wf db -> In t (tasks db) -> owned param user t = true ->
  description b = Null \/ description b = Str "" ->
  truthy (status b) = false ->
  (truthy (title b) = false ->
   updateTask db user param b now = (error 400 "At least one field is required", db))
  /\ (truthy (title b) = true ->
      exists t',
        get "task" (res_json (fst (updateTask db user param b now))) = task_row t'
        /\ In t' (tasks (snd (updateTask db user param b now)))
        /\ t_id t' = t_id t /\ t_title t' = text (title b)
        /\ t_description t'
           = match description b with Null => None | _ => Some "" end).
Proof.
  intros Hwf Hin Hown Hd Hs. split; intros Ht.
  - apply (updateTask_rejects text_as_integer). rewrite Ht, Hs.
    now destruct Hd as [-> | ->].
  - assert (Hb : truthy (title b) || truthy (description b) || truthy (status b) = true)
      by now rewrite Ht.
    destruct (updateTask_hit db user param b now t Hwf Hin Hown Hb) as (E & Hstored & _).
    exists (set_task b now t). rewrite E. split; [reflexivity|].
    split; [exact Hstored|].
    simpl. rewrite Ht. repeat split. now destruct Hd as [-> | ->].
Qed.

(** ** The guard and the lifetime of a token *)

Lemma guard_accepts (now : Z) (word token : string) (user : Claims) :
  lacks space word = true -> lacks space token = true -> token <> "" ->
  jwt_verify token JWT_SECRET now = Some user ->
  authenticateToken now (Some (word ++ " " ++ token)) = Next user.
Proof.
  intros Hw Ht Hn Hv. rewrite (guard_refines jwt_decode).
  unfold between_first_and_second_space, guard_by_segment.
  change (word ++ " " ++ token) with (word ++ String space token).
  rewrite after_append, upto_lacks by assumption.
  rewrite eqb_empty_false by assumption. now rewrite Hv.
Qed.

Lemma jwt_verify_fresh (id : Z) (mail : string) (issued now : Z) :
  now < issued + 86400 ->
  jwt_verify (jwt_sign id mail JWT_SECRET expiresIn_24h issued) JWT_SECRET now
  = Some {| c_id := id; c_email := mail; c_iat := issued; c_exp := issued + 86400 |}.
Proof.
  intros H. unfold jwt_verify, jwt_sign. rewrite jwt_decode_encode. simpl c_exp.
  change expiresIn_24h with 86400.
  replace (now >=? issued + 86400) with false; [reflexivity|].
  symmetry. rewrite Z.geb_leb. apply Z.leb_gt. lia.
Qed.

(** X11.  A token signed by the server at [issued] passes the guard at every time
    before [issued] plus 24 hours and is turned away with 403 'Invalid or
    expired token' from that second on. *)
Theorem issued_token_expires_after_24h
        (id : Z) (mail word : string) (issued now : Z) :
  lacks space word = true ->
  lacks space (jwt_sign id mail JWT_SECRET expiresIn_24h issued) = true ->
  jwt_sign id mail JWT_SECRET expiresIn_24h issued <> "" ->
  (now < issued + 86400 ->
   authenticateToken now
     (Some (word ++ " " ++ jwt_sign id mail JWT_SECRET expiresIn_24h issued))
   = Next {| c_id := id; c_email := mail; c_iat := issued; c_exp := issued + 86400 |})
  /\ (issued + 86400 <= now ->
      authenticateToken now
        (Some (word ++ " " ++ jwt_sign id mail JWT_SECRET expiresIn_24h issued))
      = Reject (error 403 "Invalid or expired token")).
Proof.
  intros Hw Ht Hn.
  set (token := jwt_sign id mail JWT_SECRET expiresIn_24h issued) in *.
  assert (Hd : jwt_decode token JWT_SECRET
               = Some {| c_id := id; c_email := mail; c_iat := issued;
                         c_exp := issued + 86400 |})
    by (unfold token, jwt_sign; apply jwt_decode_encode).
  split; intros Hnow.
  - apply guard_accepts; try assumption.
    unfold jwt_verify. rewrite Hd. simpl.
    replace (now >=? issued + 86400) with false; [reflexivity|].
    symmetry. rewrite Z.geb_leb. apply Z.leb_gt. lia.
  - rewrite (guard_refines jwt_decode).
    unfold between_first_and_second_space, guard_by_segment.
    change (word ++ " " ++ token) with (word ++ String space token).
    rewrite after_append, upto_lacks by assumption.
    rewrite eqb_empty_false by assumption.
    unfold jwt_verify. rewrite Hd. simpl.
    replace (now >=? issued + 86400) with true; [reflexivity|].
    symmetry. apply Z.geb_le. lia.
Qed.

(** X12.  The guard reads the second segment of the header and nothing after it:
    whatever follows a further space makes no difference.  No header at all
    and an empty header are 401 'Access token required'. *)
Theorem guard_reads_second_segment_only (now : Z) (word token rest : string) :
  lacks space word = true -> lacks space token = true ->
  authenticateToken now (Some (word ++ " " ++ token ++ " " ++ rest))
  = authenticateToken now (Some (word ++ " " ++ token))
  /\ authenticateToken now None = Reject (error 401 "Access token required")
  /\ authenticateToken now (Some "") = Reject (error 401 "Access token required").
Proof.
  intros Hw Ht. split; [|split; reflexivity].
  rewrite !(guard_refines jwt_decode). f_equal.
  unfold between_first_and_second_space.
  change (word ++ " " ++ token ++ " " ++ rest)
    with (word ++ String space (token ++ String space rest)).
  change (word ++ " " ++ token) with (word ++ String space token).
  rewrite !after_append by assumption.
  now rewrite upto_append, upto_lacks.
Qed.

(** ** Accounts *)

Lemma signup_created (db : DB) (b : Body) (salt : string) (now : Z) :
  truthy (email b) = true -> truthy (password b) = true -> truthy (name b) = true ->
  email_taken (text (email b)) (users db) = false ->
  signup db b salt now
  = ({| res_status := 201;
        res_json :=
          JObj [("message", JStr "User created successfully");
                ("token", JStr (jwt_sign (lastID (users_seq db) (map u_id (users db)))
                                         (text (email b)) JWT_SECRET expiresIn_24h now));
                ("user", JObj [("id", JNum (lastID (users_seq db) (map u_id (users db))));
                               ("email", JStr (text (email b)));
                               ("name", JStr (text (name b)))])] |},
     {| users := users db
                 ++ [{| u_id := lastID (users_seq db) (map u_id (users db));
                        u_email := text (email b);
                        u_password := bcrypt_hash (text (password b)) salt;
                        u_name := text (name b); u_created_at := now |}];
        users_seq := lastID (users_seq db) (map u_id (users db));
        tasks := tasks db; tasks_seq := tasks_seq db |}).
Proof.
  intros He Hp Hn Hfree. unfold signup. now rewrite He, Hp, Hn, Hfree.
Qed.

Lemma signup_201 (db : DB) (b : Body) (salt : string) (now : Z) :
  res_status (fst (signup db b salt now)) = 201 ->
  truthy (email b) = true /\ truthy (password b) = true /\ truthy (name b) = true
  /\ email_taken (text (email b)) (users db) = false.
Proof.
  unfold signup.
  destruct (truthy (email b)); [|discriminate].
  destruct (truthy (password b)); [|discriminate].
  destruct (truthy (name b)); [|discriminate]. simpl.
  destruct (email_taken (text (email b)) (users db)); [discriminate|].
  intros _. repeat split.
Qed.

(** X13.  After a signup answered 201, the new user's profile is there: [getProfile]
    under the id of the answer returns id, e-mail and name as given and the
    signup time as [created_at]; and the route answers the same to any
    header whose second segment is the token of the answer, until the token
    expires. *)
Theorem new_user_reads_own_profile
        (db : DB) (b : Body) (salt word : string) (now later : Z) :
  res_status (fst (signup db b salt now)) = 201 ->
  lacks space word = true -> later < now + 86400 ->
  exists id token,
    get "token" (res_json (fst (signup db b salt now))) = JStr token
    /\ get "id" (get "user" (res_json (fst (signup db b salt now)))) = JNum id
    /\ (forall user,
          c_id user = id ->
          getProfile (snd (signup db b salt now)) user
          = ({| res_status := 200;
                res_json :=
                  JObj [("user", JObj [("id", JNum id);
                                       ("email", JStr (text (email b)));
                                       ("name", JStr (text (name b)));
                                       ("created_at", JTime now)])] |},
             snd (signup db b salt now)))
    /\ (lacks space token = true -> token <> "" ->
        handle later (snd (signup db b salt now)) (GetProfile (Some (word ++ " " ++ token)))
        = ({| res_status := 200;
              res_json :=
                JObj [("user", JObj [("id", JNum id);
                                     ("email", JStr (text (email b)));
                                     ("name", JStr (text (name b)));
                                     ("created_at", JTime now)])] |},
           snd (signup db b salt now))).
Proof.
  intros H201 Hw Hlater.
  destruct (signup_201 db b salt now H201) as (He & Hp & Hn & Hfree).
  rewrite (signup_created db b salt now He Hp Hn Hfree). simpl fst. simpl snd.
  set (id := lastID (users_seq db) (map u_id (users db))).
  exists id, (jwt_sign id (text (email b)) JWT_SECRET expiresIn_24h now).
  split; [reflexivity|]. split; [reflexivity|].
  assert (Hget : forall user, c_id user = id ->
            getProfile {| users := users db
                                   ++ [{| u_id := id; u_email := text (email b);
                                          u_password := bcrypt_hash (text (password b)) salt;
                                          u_name := text (name b); u_created_at := now |}];
                          users_seq := id; tasks := tasks db; tasks_seq := tasks_seq db |}
                       user
            = ({| res_status := 200;
                  res_json :=
                    JObj [("user", JObj [("id", JNum id);
                                         ("email", JStr (text (email b)));
                                         ("name", JStr (text (name b)));
                                         ("created_at", JTime now)])] |},
               {| users := users db
                           ++ [{| u_id := id; u_email := text (email b);
                                  u_password := bcrypt_hash (text (password b)) salt;
                                  u_name := text (name b); u_created_at := now |}];
                  users_seq := id; tasks := tasks db; tasks_seq := tasks_seq db |})).
  { intros user Hid. unfold getProfile. simpl users. rewrite Hid.
    rewrite find_app_none.
    - simpl. now rewrite Z.eqb_refl.
    - apply find_all_false. intros u Hu. apply Z.eqb_neq.
      pose proof (lastID_above (users_seq db) (map u_id (users db)) (u_id u)
                               (in_map u_id _ _ Hu)). unfold id. lia. }
  split; [exact Hget|].
  intros Ht Hne.
  unfold handle, guarded.
  rewrite (guard_accepts later word _ _ Hw Ht Hne
                         (jwt_verify_fresh id (text (email b)) now later Hlater)).
  now apply Hget.
Qed.

(** A signup that repeats the e-mail of a signup just answered 201 is
    answered 409 'Email already exists', whatever its password and name,
    and adds nothing. *)
Lemma second_signup_conflicts
        (db : DB) (b b2 : Body) (salt salt2 : string) (now now2 : Z) :
  res_status (fst (signup db b salt now)) = 201 ->
  truthy (email b2) = true -> truthy (password b2) = true -> truthy (name b2) = true ->
  text (email b2) = text (email b) ->
  signup (snd (signup db b salt now)) b2 salt2 now2
  = (error 409 "Email already exists", snd (signup db b salt now)).
Proof.
  intros H201 He2 Hp2 Hn2 Esame.
  destruct (signup_201 db b salt now H201) as (He & Hp & Hn & Hfree).
  rewrite (signup_created db b salt now He Hp Hn Hfree). simpl snd.
  unfold signup at 1. rewrite He2, Hp2, Hn2. simpl negb. simpl orb. cbv iota.
  simpl users. unfold email_taken. rewrite existsb_app. simpl.
  rewrite Esame, String.eqb_refl. now rewrite !orb_true_r.
Qed.

Lemma find_user_mapped (db : DB) (uid : Z) (b : Body) (u : User) :
  wf db -> find (fun x => Z.eqb (u_id x) uid) (users db) = Some u ->
  find (fun x => Z.eqb (u_id x) uid)
       (map (fun x => if Z.eqb (u_id x) uid then set_user b x else x) (users db))
  = Some (set_user b u).
Proof.
  intros [_ Hnd] Hfind. apply find_some in Hfind. destruct Hfind as [Hin Hid].
  set (f := fun x => if Z.eqb (u_id x) uid then set_user b x else x).
  assert (Hf : f u = set_user b u) by (unfold f; now rewrite Hid).
  apply find_the_one.
  - rewrite <- Hf. now apply in_map.
  - exact Hid.
  - intros x Hx Hx'. apply in_map_iff in Hx. destruct Hx as (y & <- & Hy).
    assert (Ey : u_id (f y) = u_id y) by (unfold f; now destruct (Z.eqb (u_id y) uid)).
    rewrite Ey in Hx'. rewrite <- Hf. f_equal.
    apply (NoDup_map_In_inj u_id (users db)); try assumption.
    apply Z.eqb_eq in Hx', Hid. congruence.
Qed.

(** X15.  A profile update that is accepted is answered 200 with the caller's row
    as rewritten by the body, and [getProfile] returns that same view
    afterwards. *)
Theorem updated_profile_is_returned (db : DB) (user : Claims) (b : Body) (u : User) :
  wf db ->
  find (fun x => Z.eqb (u_id x) (c_id user)) (users db) = Some u ->
  truthy (name b) || truthy (email b) = true ->
  truthy (email b) && email_collides (c_id user) (text (email b)) (users db) = false ->
  fst (updateProfile db user b)
  = {| res_status := 200;
       res_json := JObj [("message", JStr "Profile updated successfully");
                         ("user", profile_row (set_user b u))] |}
  /\ getProfile (snd (updateProfile db user b)) user
     = ({| res_status := 200; res_json := JObj [("user", profile_row (set_user b u))] |},
        snd (updateProfile db user b)).
Proof.
  intros Hwf Hfind Hb Hfree. unfold updateProfile.
  replace (negb (truthy (name b)) && negb (truthy (email b))) with false
    by (destruct (truthy (name b)), (truthy (email b)); simpl in *; congruence).
  rewrite Hfree. simpl fst. simpl snd. unfold getProfile. simpl users.
  rewrite (find_user_mapped db (c_id user) b u Hwf Hfind). now split.
Qed.

(** X16.  An identity with no row (a token that outlived the table) gets 404 'User
    not found' from [getProfile], but 200 'Profile updated successfully'
    with no user from [updateProfile], which changes nothing. *)
Theorem profile_of_unknown_identity (db : DB) (user : Claims) (b : Body) :
  find (fun x => Z.eqb (u_id x) (c_id user)) (users db) = None ->
  truthy (name b) || truthy (email b) = true ->
  getProfile db user = (error 404 "User not found", db)
  /\ updateProfile db user b
     = ({| res_status := 200;
           res_json := JObj [("message", JStr "Profile updated successfully");
                             ("user", JUndefined)] |}, db).
Proof.
  intros Hnone Hb. split; [unfold getProfile; now rewrite Hnone|].
  pose proof (find_none _ _ Hnone) as Hall.
  unfold updateProfile.
  replace (negb (truthy (name b)) && negb (truthy (email b))) with false
    by (destruct (truthy (name b)), (truthy (email b)); simpl in *; congruence).
  assert (Hex : existsb (fun x => Z.eqb (u_id x) (c_id user)) (users db) = false).
  { destruct (existsb _ (users db)) eqn:E; [|reflexivity].
    apply existsb_exists in E. destruct E as (x & Hx & Ex).
    rewrite (Hall x Hx) in Ex. discriminate. }
  unfold email_collides. rewrite Hex. simpl andb. rewrite andb_false_r.
  rewrite map_if_all_false by assumption. rewrite Hnone. simpl.
  now rewrite db_eta.
Qed.

(** X17.  Changing one's e-mail to the address of another row is answered 409 and
    changes nothing; sending one's own current address is no conflict. *)
Theorem profile_email_conflicts (db : DB) (user : Claims) (b : Body) (u : User) :
  emails_unique db -> In u (users db) -> u_id u = c_id user ->
  truthy (email b) = true ->
  (text (email b) = u_email u -> res_status (fst (updateProfile db user b)) = 200)
  /\ (forall v, In v (users db) -> u_id v <> c_id user -> text (email b) = u_email v ->
                updateProfile db user b = (error 409 "Email already exists", db)).
Proof.
  intros Huniq Hin Hid Hb. unfold updateProfile.
  replace (negb (truthy (name b)) && negb (truthy (email b))) with false
    by (rewrite Hb; now destruct (truthy (name b))).
  rewrite Hb. simpl andb. split.
  - intros Eown.
    replace (email_collides (c_id user) (text (email b)) (users db)) with false;
      [reflexivity|].
    symmetry. unfold email_collides. apply andb_false_iff. right.
    destruct (existsb _ (users db)) eqn:E; [|reflexivity].
    apply existsb_exists in E. destruct E as (v & Hv & Ev).
    apply andb_prop in Ev. destruct Ev as [Ev1 Ev2].
    apply negb_true_iff, Z.eqb_neq in Ev1. apply String.eqb_eq in Ev2.
    exfalso. apply Ev1. rewrite <- Hid. f_equal.
    apply (NoDup_map_In_inj u_email (users db)); try assumption. congruence.
  - intros v Hv Hne Eother.
    replace (email_collides (c_id user) (text (email b)) (users db)) with true;
      [reflexivity|].
    symmetry. unfold email_collides. apply andb_true_intro. split.
    + apply existsb_exists. exists u. split; [assumption|]. now apply Z.eqb_eq.
    + apply existsb_exists. exists v. split; [assumption|].
      apply andb_true_intro. split.
      * now apply negb_true_iff, Z.eqb_neq.
      * apply String.eqb_eq. now symmetry.
Qed.

(** ** The newest task comes first *)

(** X18.  A task created at a time later than the [created_at] of all tasks the
    caller has is the first item of the caller's next listing, followed by
    the previous listing unchanged. *)
Theorem new_task_is_listed_first (db : DB) (user : Claims) (b : Body) (now : Z) :
  truthy (title b) = true ->
  Forall (fun x => t_created_at x < now) (mine user db) ->
  exists t,
    get "task" (res_json (fst (createTask db user b now))) = task_row t
    /\ get "tasks" (res_json (fst (listTasks (snd (createTask db user b now)) user)))
       = JArr (task_row t :: map task_row (order_by_created_at_desc (mine user db)))
    /\ get "tasks" (res_json (fst (listTasks db user)))
       = JArr (map task_row (order_by_created_at_desc (mine user db))).
Proof.
  intros Hb Hold.
  exists (inserted_task db user b now).
  rewrite (createTask_inserted db user b now Hb). simpl fst. simpl snd.
  split; [reflexivity|]. split; [|reflexivity].
  unfold listTasks. simpl. rewrite filter_app. simpl.
  rewrite Z.eqb_refl. fold (mine user db).
  now rewrite order_by_newest_last.
Qed.

(** ** Who gets a token, and who stays *)

(** X19.  [login] answers 200 only when some row has the given e-mail and
    [bcrypt.compare] accepts the given password against that row's hash; the
    token is then signed for that row's id and e-mail.  Any other answer
    carries neither a token nor a user. *)
Theorem login_requires_matching_password (db : DB) (b : Body) (now : Z) :
  (res_status (fst (login db b now)) = 200 ->
   exists u,
     In u (users db) /\ u_email u = text (email b)
     /\ bcrypt_compare (text (password b)) (u_password u) = true
     /\ get "token" (res_json (fst (login db b now)))
        = JStr (jwt_sign (u_id u) (u_email u) JWT_SECRET expiresIn_24h now)
     /\ get "id" (get "user" (res_json (fst (login db b now)))) = JNum (u_id u))
  /\ (res_status (fst (login db b now)) <> 200 ->
      get "token" (res_json (fst (login db b now))) = JUndefined
      /\ get "user" (res_json (fst (login db b now))) = JUndefined).
Proof.
  unfold login.
  destruct (negb (truthy (email b)) || negb (truthy (password b)));
    [split; [discriminate|now split]|].
  destruct (find _ (users db)) as [u|] eqn:F; [|split; [discriminate|now split]].
  apply find_some in F. destruct F as [Hin He]. apply String.eqb_eq in He.
  destruct (bcrypt_compare (text (password b)) (u_password u)) eqn:C; simpl.
  - split; [|intros H; now contradiction H].
    intros _. exists u. now repeat split.
  - split; [discriminate|now split].
Qed.

Lemma handle_keeps_users (now : Z) (db : DB) (req : Request) (u : User) :
  In u (users db) ->
  exists u', In u' (users (snd (handle now db req)))
             /\ u_id u' = u_id u /\ u_password u' = u_password u
             /\ u_created_at u' = u_created_at u.
Proof.
  intros Hin.
  assert (Hsame : exists u', In u' (users db) /\ u_id u' = u_id u
                             /\ u_password u' = u_password u
                             /\ u_created_at u' = u_created_at u)
    by (exists u; tauto).
  destruct req; simpl; unfold guarded;
    try (destruct (authenticateToken now authorization) as [res|user]; [exact Hsame|]).
  - unfold signup.
    destruct (negb (truthy (email b)) || negb (truthy (password b))
              || negb (truthy (name b))); [exact Hsame|].
    destruct (email_taken (text (email b)) (users db)); [exact Hsame|].
    exists u. simpl. rewrite in_app_iff. tauto.
  - now rewrite (login_db bcrypt_compare jwt_encode).
  - now rewrite getProfile_db.
  - unfold updateProfile.
    destruct (negb (truthy (name b)) && negb (truthy (email b))); [exact Hsame|].
    destruct (truthy (email b) && email_collides (c_id user) (text (email b)) (users db));
      [exact Hsame|].
    exists (if Z.eqb (u_id u) (c_id user) then set_user b u else u). simpl. split.
    + apply in_map_iff. now exists u.
    + now destruct (Z.eqb (u_id u) (c_id user)).
  - unfold createTask. now destruct (negb (truthy (title b))).
  - exact Hsame.
  - now rewrite (getTask_db text_as_integer).
  - unfold updateTask.
    destruct (negb (truthy (title b)) && negb (truthy (description b))
              && negb (truthy (status b))); [exact Hsame|].
    now destruct (Nat.eqb _ 0).
  - unfold deleteTask. now destruct (Nat.eqb _ 0).
Qed.

(** X20.  No sequence of requests removes a user row or changes its id, its
    password hash or its [created_at]: there is no route for any of that. *)
Theorem users_are_never_removed (reqs : list (Z * Request)) (db : DB) (u : User) :
  In u (users db) ->
  exists u', In u' (users (run db reqs))
             /\ u_id u' = u_id u /\ u_password u' = u_password u
             /\ u_created_at u' = u_created_at u.
Proof.
  revert db u. induction reqs as [|[now req] reqs IH]; intros db u Hin; simpl.
  - exists u. tauto.
  - destruct (handle_keeps_users now db req u Hin) as (v & Hv & E1 & E2 & E3).
    destruct (IH _ v Hv) as (w & Hw & F1 & F2 & F3).
    exists w. repeat split; congruence.
Qed.

(** ** Reading and removing only one's own *)

(** X21.  A 200 from [getTask] carries a stored row whose owner is the caller and
    whose id is the one asked for; and every row a [deleteTask] removes is
    the caller's, with the id asked for. *)
Theorem only_own_tasks_are_read_or_removed (db : DB) (user : Claims) (param : string) :
  (res_status (fst (getTask db user param)) = 200 ->
   exists t,
     In t (tasks db) /\ t_user_id t = c_id user /\ id_is param (t_id t) = true
     /\ res_json (fst (getTask db user param)) = JObj [("task", task_row t)])
  /\ (forall x,
        In x (tasks db) -> ~ In x (tasks (snd (deleteTask db user param))) ->
        t_user_id x = c_id user /\ id_is param (t_id x) = true).
Proof.
  split.
  - unfold getTask. destruct (find (owned param user) (tasks db)) as [t|] eqn:F;
      [|discriminate].
    intros _. apply find_some in F. destruct F as [Hin Hown].
    destruct (owned_owner user param t Hown) as [Hid Huser].
    exists t. now repeat split.
  - intros x Hx Hgone.
    assert (Hown : owned param user x = true).
    { destruct (owned param user x) eqn:E; [reflexivity|]. exfalso. apply Hgone.
      unfold deleteTask. destruct (Nat.eqb _ 0); simpl; apply filter_In;
        (split; [assumption|now rewrite E]). }
    destruct (owned_owner user param x Hown) as [Hid Huser]. now split.
Qed.

(** ** Login follows a change of e-mail *)

(** X22.  After an accepted change of e-mail the account logs in under the new
    address with the password it always had, and the old address is
    'Invalid credentials'. *)
Theorem login_follows_email_change
        (db : DB) (user : Claims) (b login_new login_old : Body) (u : User) (now : Z) :
  wf db -> emails_unique db ->
  find (fun x => Z.eqb (u_id x) (c_id user)) (users db) = Some u ->
  truthy (email b) = true -> text (email b) <> u_email u ->
  email_collides (c_id user) (text (email b)) (users db) = false ->
  email login_new = email b -> truthy (password login_new) = true ->
  bcrypt_compare (text (password login_new)) (u_password u) = true ->
  email login_old = Str (u_email u) -> truthy (password login_old) = true ->
  u_email u <> "" ->
  (res_status (fst (login (snd (updateProfile db user b)) login_new now)) = 200
   /\ get "user" (res_json (fst (login (snd (updateProfile db user b)) login_new now)))
      = JObj [("id", JNum (u_id u)); ("email", JStr (text (email b)));
              ("name", JStr (u_name (set_user b u)))])
  /\ login (snd (updateProfile db user b)) login_old now
     = (error 401 "Invalid credentials", snd (updateProfile db user b)).
Proof.
  intros Hwf Huniq Hfind Hb Hnew Hfree En Hpn Hc Eo Hpo Hold.
  pose proof Hwf as [_ Hnd].
  pose proof (find_some _ _ Hfind) as [Hin Hid].
  unfold updateProfile.
  replace (negb (truthy (name b)) && negb (truthy (email b))) with false
    by (rewrite Hb; now destruct (truthy (name b))).
  rewrite Hb, Hfree. simpl andb. cbv iota. simpl snd.
  set (f := fun x => if Z.eqb (u_id x) (c_id user) then set_user b x else x).
  assert (Hf : f u = set_user b u) by (unfold f; now rewrite Hid).
  assert (Hothers : forall y, In y (users db) -> u_id y <> c_id user ->
                              u_email y <> text (email b)).
  { apply no_collision. unfold email_collides in Hfree.
    apply andb_false_iff in Hfree. destruct Hfree as [Hfree|Hfree]; [|assumption].
    enough (existsb (fun x => Z.eqb (u_id x) (c_id user)) (users db) = true) by congruence.
    apply existsb_exists. now exists u. }
  assert (Hsame : forall y, In y (users db) -> u_id y = c_id user -> y = u).
  { intros y Hy Ey. apply (NoDup_map_In_inj u_id (users db)); try assumption.
    apply Z.eqb_eq in Hid. congruence. }
  split.
  - unfold login. simpl users. rewrite En, Hb, Hpn. simpl negb. simpl orb. cbv iota.
    rewrite (find_the_one _ (map f (users db)) (set_user b u)).
    + simpl u_password. rewrite Hc. simpl. rewrite Hb. now split.
    + rewrite <- Hf. now apply in_map.
    + simpl. rewrite Hb. apply String.eqb_refl.
    + intros x Hx Hx'. apply in_map_iff in Hx. destruct Hx as (y & <- & Hy).
      apply String.eqb_eq in Hx'. unfold f in *.
      destruct (Z.eqb (u_id y) (c_id user)) eqn:Ey.
      * apply Z.eqb_eq in Ey. now rewrite (Hsame y Hy Ey).
      * apply Z.eqb_neq in Ey. now destruct (Hothers y Hy Ey).
  - unfold login. simpl users. rewrite Eo, Hpo.
    replace (truthy (Str (u_email u))) with true
      by (symmetry; simpl; apply negb_true_iff; now apply String.eqb_neq).
    simpl negb. simpl orb. cbv iota. simpl text.
    rewrite find_all_false; [reflexivity|].
    intros x Hx. apply in_map_iff in Hx. destruct Hx as (y & <- & Hy).
    apply String.eqb_neq. unfold f.
    destruct (Z.eqb (u_id y) (c_id user)) eqn:Ey.
    + simpl. now rewrite Hb.
    + apply Z.eqb_neq in Ey. intros E. apply Ey. apply Z.eqb_eq in Hid.
      rewrite <- Hid. f_equal.
      now apply (NoDup_map_In_inj u_email (users db)).
Qed.

(** ** Passwords that are not strings *)

(** X1.  A request that is not answered 200 or 201 leaves the database exactly
    as it was: the 400, 401, 403, 404 and 409 answers of every route, and the
    500 'Server error' of signup and login for a password that is not a
    string. *)
Theorem unsuccessful_requests_change_nothing (now : Z) (db : DB) (req : JsonRequest) :
  (res_status (fst (handle_json now db req)) = 200
   \/ res_status (fst (handle_json now db req)) = 201)
  \/ snd (handle_json now db req) = db.
Proof.
  destruct req as [b pw salt|b pw|req]; simpl.
  - unfold signup_json.
    destruct (negb (truthy (email b)) || negb (truthy_value pw) || negb (truthy (name b)));
      [now right|].
    destruct pw; try (now right).
    destruct (failed_requests_change_nothing now db (PostSignup (set_password b (Str s)) salt))
      as [H|[H _]]; [now left|now right].
  - unfold login_json.
    destruct (negb (truthy (email b)) || negb (truthy_value pw)); [now right|].
    destruct (find _ (users db)); [|now right].
    destruct pw; try (now right).
    destruct (failed_requests_change_nothing now db (PostLogin (set_password b (Str s))))
      as [H|[H _]]; [now left|now right].
  - destruct (failed_requests_change_nothing now db req) as [H|[H _]];
      [now left|now right].
Qed.

Lemma handle_json_nonempty (now : Z) (db : DB) (req : JsonRequest) :
  nonempty_fields db -> nonempty_fields (snd (handle_json now db req)).
Proof.
  intros H. destruct req as [b pw salt|b pw|req]; simpl.
  - unfold signup_json.
    destruct (negb (truthy (email b)) || negb (truthy_value pw) || negb (truthy (name b)));
      [exact H|].
    destruct pw; try exact H.
    exact (handle_nonempty now db (PostSignup (set_password b (Str s)) salt) H).
  - unfold login_json.
    destruct (negb (truthy (email b)) || negb (truthy_value pw)); [exact H|].
    destruct (find _ (users db)); [|exact H].
    destruct pw; try exact H.
    now rewrite (login_db bcrypt_compare jwt_encode).
  - now apply handle_nonempty.
Qed.

(** X5.  With e-mail, name, title, description and status each a string, null
    or absent, and the password any JSON value: however many requests are
    served, no user row holds an empty e-mail or name and no task row an
    empty title or status (given that none did at the start). *)
Theorem required_text_fields_stay_nonempty (reqs : list (Z * JsonRequest)) (db : DB) :
  nonempty_fields db -> nonempty_fields (run_json db reqs).
Proof.
  revert db. induction reqs as [|[now req] reqs IH]; intros db H; simpl.
  - exact H.
  - apply IH. now apply handle_json_nonempty.
Qed.

(** X14.  After a signup answered 201, a signup that repeats its e-mail never
    adds a row.  It is answered 400 when the password or the name is
    missing, 500 'Server error' when the password is there but is not a
    string, and 409 'Email already exists' otherwise. *)
Theorem repeated_email_signup_adds_nothing
        (db : DB) (b b2 : Body) (pw pw2 : Value) (salt salt2 : string) (now now2 : Z) :
  res_status (fst (signup_json db b pw salt now)) = 201 ->
  truthy (email b2) = true -> text (email b2) = text (email b) ->
  signup_json (snd (signup_json db b pw salt now)) b2 pw2 salt2 now2
  = (if negb (truthy_value pw2) || negb (truthy (name b2))
     then error 400 "Email, password, and name are required"
     else if is_string pw2 then error 409 "Email already exists"
          else error 500 "Server error",
     snd (signup_json db b pw salt now)).
Proof.
  intros H201 He2 Esame.
  assert (Hstr : exists p, pw = VStr p
                           /\ res_status (fst (signup db (set_password b (Str p)) salt now))
                              = 201).
  { unfold signup_json in H201.
    destruct (negb (truthy (email b)) || negb (truthy_value pw) || negb (truthy (name b)));
      [discriminate|].
    destruct pw; try discriminate. now exists s. }
  destruct Hstr as (p & -> & H201').
  rewrite (signup_json_string bcrypt_hash jwt_encode db b p salt now).
  set (db' := snd (signup db (set_password b (Str p)) salt now)).
  unfold signup_json. rewrite He2. simpl negb at 1. simpl orb at 1.
  destruct (truthy_value pw2) eqn:Tp; [|reflexivity].
  destruct (truthy (name b2)) eqn:Tn; [|reflexivity]. simpl.
  destruct pw2; try reflexivity.
  exact (second_signup_conflicts db (set_password b (Str p)) (set_password b2 (Str s))
                                 salt salt2 now now2 H201' He2 Tp Tn Esame).
Qed.

End Coverage.


(** ** Instances of the further properties *)

Lemma toy_db3_emails : emails_unique Toy.db3.
Proof.
  unfold emails_unique. vm_compute.
  constructor; [intros [H|[]]; discriminate|].
  constructor; [intros []|constructor].
Qed.

Lemma toy_db3_seq : seq_ok Toy.db3.
Proof.
  split; vm_compute; repeat constructor; discriminate.
Qed.

Lemma task_routes_leave_other_users_rows_witness :
  fst (listTasks (snd (deleteTask Toy.text_as_integer Toy.db3 Toy.userB "1")) Toy.userA)
  = fst (listTasks Toy.db3 Toy.userA).
Proof.
  assert (Hne : c_id Toy.userA <> c_id Toy.userB) by (vm_compute; discriminate).
  exact (proj2 (proj2 (proj2
           (task_routes_leave_other_users_rows
              Toy.text_as_integer Toy.userA Toy.userB Toy.db3 "1" no_fields 104 Hne)))).
Defined.

Lemma emails_stay_unique_witness : emails_unique (Toy.run empty_db Toy.scenario).
Proof.
  apply (emails_stay_unique Toy.bcrypt_hash Toy.bcrypt_compare Toy.jwt_encode
                            Toy.jwt_decode Toy.text_as_integer Toy.scenario empty_db).
  - exact wf_empty.
  - constructor.
Defined.

Lemma task_ids_are_never_reused_witness :
  exists t,
    tasks_seq Toy.db3 < t_id t
    /\ get "task" (res_json (fst (createTask (Toy.run Toy.db3 Toy.after_delete)
                                             Toy.userA (Toy.body_task "again") 105)))
       = task_row t.
Proof.
  destruct (task_ids_are_never_reused
              Toy.bcrypt_hash Toy.bcrypt_compare Toy.jwt_encode Toy.jwt_decode
              Toy.text_as_integer Toy.db3 Toy.after_delete Toy.userA
              (Toy.body_task "again") 105 toy_db3_seq eq_refl)
    as (t & _ & Hseq & _ & _ & _ & Hres).
  exists t. split; assumption.
Defined.


Lemma updated_at_follows_created_at_witness :
  stamped (last_clock 0 Toy.scenario) (Toy.run empty_db Toy.scenario).
Proof.
  apply (updated_at_follows_created_at
           Toy.bcrypt_hash Toy.bcrypt_compare Toy.jwt_encode Toy.jwt_decode
           Toy.text_as_integer Toy.scenario 0 empty_db).
  - constructor.
  - simpl. repeat split; discriminate.
Defined.

Lemma created_task_can_be_fetched_witness :
  exists t,
    t_status t = "pending"
    /\ fst (createTask Toy.db3 Toy.userB (Toy.body_task "call home") 104)
       = {| res_status := 201;
            res_json := JObj [("message", JStr "Task created successfully");
                              ("task", task_row t)] |}
    /\ getTask Toy.text_as_integer
               (snd (createTask Toy.db3 Toy.userB (Toy.body_task "call home") 104))
               Toy.userB "2"
       = ({| res_status := 200; res_json := JObj [("task", task_row t)] |},
          snd (createTask Toy.db3 Toy.userB (Toy.body_task "call home") 104)).
Proof.
  destruct (created_task_can_be_fetched
              Toy.text_as_integer Toy.db3 Toy.userB (Toy.body_task "call home") 104 eq_refl)
    as (t & Hres & Htasks & _ & _ & _ & Hstatus & _ & _ & _ & Hget).
  exists t. split; [exact Hstatus|]. split; [exact Hres|].
  apply Hget. vm_compute in Htasks. injection Htasks as <-. reflexivity.
Defined.

Lemma updated_task_is_returned_witness :
  getTask Toy.text_as_integer
          (snd (updateTask Toy.text_as_integer Toy.db3 Toy.userA "1"
                           (Toy.body_task "buy bread") 104))
          Toy.userA "1"
  = ({| res_status := 200;
        res_json := JObj [("task", task_row (set_task (Toy.body_task "buy bread") 104
                                                      Toy.task1))] |},
     snd (updateTask Toy.text_as_integer Toy.db3 Toy.userA "1"
                     (Toy.body_task "buy bread") 104)).
Proof.
  assert (Hin : In Toy.task1 (tasks Toy.db3)) by (vm_compute; left; reflexivity).
  exact (proj1 (proj2
           (updated_task_is_returned
              Toy.text_as_integer Toy.db3 Toy.userA "1" (Toy.body_task "buy bread") 104
              Toy.task1 toy_db3_wf Hin eq_refl eq_refl))).
Defined.

Lemma deleted_task_is_gone_witness :
  getTask Toy.text_as_integer (snd (deleteTask Toy.text_as_integer Toy.db3 Toy.userA "1"))
          Toy.userA "1"
  = (error 404 "Task not found", snd (deleteTask Toy.text_as_integer Toy.db3 Toy.userA "1")).
Proof.
  assert (Hin : In Toy.task1 (tasks Toy.db3)) by (vm_compute; left; reflexivity).
  exact (proj1 (proj2 (proj2 (proj2
           (deleted_task_is_gone
              Toy.text_as_integer Toy.db3 Toy.userA "1" Toy.task1
              toy_db3_wf Hin eq_refl))))).
Defined.

Lemma description_is_cleared_only_with_another_field_witness :
  updateTask Toy.text_as_integer Toy.db3 Toy.userA "1" Toy.body_only_null 104
  = (error 400 "At least one field is required", Toy.db3)
  /\ exists t',
      get "task" (res_json (fst (updateTask Toy.text_as_integer Toy.db3 Toy.userA "1"
                                            (Toy.body_clear "buy bread") 104)))
      = task_row t'
      /\ In t' (tasks (snd (updateTask Toy.text_as_integer Toy.db3 Toy.userA "1"
                                       (Toy.body_clear "buy bread") 104)))
      /\ t_id t' = t_id Toy.task1 /\ t_title t' = "buy bread"
      /\ t_description t' = None.
Proof.
  assert (Hin : In Toy.task1 (tasks Toy.db3)) by (vm_compute; left; reflexivity).
  split.
  - exact (proj1 (description_is_cleared_only_with_another_field
                    Toy.text_as_integer Toy.db3 Toy.userA "1" Toy.body_only_null 104
                    Toy.task1 toy_db3_wf Hin eq_refl (or_introl eq_refl) eq_refl)
                 eq_refl).
  - exact (proj2 (description_is_cleared_only_with_another_field
                    Toy.text_as_integer Toy.db3 Toy.userA "1" (Toy.body_clear "buy bread")
                    104 Toy.task1 toy_db3_wf Hin eq_refl (or_introl eq_refl) eq_refl)
                 eq_refl).
Defined.

Lemma issued_token_expires_after_24h_witness :
  authenticateToken Toy.jwt_decode 200 (Some ("Bearer " ++ Toy.T1)) = Next Toy.userA
  /\ authenticateToken Toy.jwt_decode 86500 (Some ("Bearer " ++ Toy.T1))
     = Reject (error 403 "Invalid or expired token").
Proof.
  assert (Hw : lacks space "Bearer" = true) by reflexivity.
  assert (Ht : lacks space Toy.T1 = true) by (vm_compute; reflexivity).
  assert (Hn : Toy.T1 <> "") by (vm_compute; discriminate).
  split.
  - exact (proj1 (issued_token_expires_after_24h
                    Toy.jwt_encode Toy.jwt_decode toy_jwt_decode_encode
                    1 "a@x.com" "Bearer" 100 200 Hw Ht Hn) eq_refl).
  - refine (proj2 (issued_token_expires_after_24h
                     Toy.jwt_encode Toy.jwt_decode toy_jwt_decode_encode
                     1 "a@x.com" "Bearer" 100 86500 Hw Ht Hn) _).
    vm_compute. discriminate.
Defined.

Lemma guard_reads_second_segment_only_witness :
  authenticateToken Toy.jwt_decode 103 (Some ("Bearer" ++ " " ++ Toy.T1 ++ " " ++ "junk"))
  = authenticateToken Toy.jwt_decode 103 (Some ("Bearer" ++ " " ++ Toy.T1)).
Proof.
  assert (Ht : lacks space Toy.T1 = true) by (vm_compute; reflexivity).
  exact (proj1 (guard_reads_second_segment_only
                  Toy.jwt_decode 103 "Bearer" Toy.T1 "junk" eq_refl Ht)).
Defined.

Lemma new_user_reads_own_profile_witness :
  Toy.handle 200
    (snd (signup Toy.bcrypt_hash Toy.jwt_encode empty_db
                 (Toy.body_signup "a@x.com" "p1" "A") "salt1" 100))
    (GetProfile (Some ("Bearer" ++ " " ++ Toy.T1)))
  = ({| res_status := 200;
        res_json := JObj [("user", JObj [("id", JNum 1); ("email", JStr "a@x.com");
                                         ("name", JStr "A"); ("created_at", JTime 100)])] |},
     snd (signup Toy.bcrypt_hash Toy.jwt_encode empty_db
                 (Toy.body_signup "a@x.com" "p1" "A") "salt1" 100)).
Proof.
  destruct (new_user_reads_own_profile
              Toy.bcrypt_hash Toy.bcrypt_compare Toy.jwt_encode Toy.jwt_decode
              Toy.text_as_integer toy_jwt_decode_encode
              empty_db (Toy.body_signup "a@x.com" "p1" "A") "salt1" "Bearer" 100 200
              eq_refl eq_refl eq_refl)
    as (id & token & Htok & Hid & _ & Hroute).
  vm_compute in Htok. injection Htok as <-.
  vm_compute in Hid. injection Hid as <-.
  apply Hroute; [reflexivity|discriminate].
Defined.


Lemma updated_profile_is_returned_witness :
  getProfile (snd (updateProfile Toy.db3 Toy.userA (Toy.body_name "Ann"))) Toy.userA
  = ({| res_status := 200;
        res_json := JObj [("user", profile_row (set_user (Toy.body_name "Ann") Toy.rowA))] |},
     snd (updateProfile Toy.db3 Toy.userA (Toy.body_name "Ann"))).
Proof.
  exact (proj2 (updated_profile_is_returned
                  Toy.db3 Toy.userA (Toy.body_name "Ann") Toy.rowA
                  toy_db3_wf eq_refl eq_refl eq_refl)).
Defined.

Lemma profile_of_unknown_identity_witness :
  getProfile Toy.db3 Toy.ghost = (error 404 "User not found", Toy.db3)
  /\ updateProfile Toy.db3 Toy.ghost (Toy.body_name "Nobody")
     = ({| res_status := 200;
           res_json := JObj [("message", JStr "Profile updated successfully");
                             ("user", JUndefined)] |}, Toy.db3).
Proof.
  exact (profile_of_unknown_identity Toy.db3 Toy.ghost (Toy.body_name "Nobody")
                                     eq_refl eq_refl).
Defined.

Lemma profile_email_conflicts_witness :
  res_status (fst (updateProfile Toy.db3 Toy.userA (Toy.body_email "a@x.com"))) = 200
  /\ updateProfile Toy.db3 Toy.userA (Toy.body_email "b@x.com")
     = (error 409 "Email already exists", Toy.db3).
Proof.
  assert (Hin : In Toy.rowA (users Toy.db3)) by (vm_compute; left; reflexivity).
  split.
  - exact (proj1 (profile_email_conflicts
                    Toy.db3 Toy.userA (Toy.body_email "a@x.com") Toy.rowA
                    toy_db3_emails Hin eq_refl eq_refl) eq_refl).
  - refine (proj2 (profile_email_conflicts
                     Toy.db3 Toy.userA (Toy.body_email "b@x.com") Toy.rowA
                     toy_db3_emails Hin eq_refl eq_refl)
                  {| u_id := 2; u_email := "b@x.com"; u_password := "$p2";
                     u_name := "B"; u_created_at := 102 |} _ _ eq_refl).
    + vm_compute. right. left. reflexivity.
    + vm_compute. discriminate.
Defined.

Lemma new_task_is_listed_first_witness :
  exists t,
    get "task" (res_json (fst (createTask Toy.db3 Toy.userA
                                          (Toy.body_task "water plants") 105)))
    = task_row t
    /\ get "tasks" (res_json (fst (listTasks
                                     (snd (createTask Toy.db3 Toy.userA
                                                      (Toy.body_task "water plants") 105))
                                     Toy.userA)))
       = JArr (task_row t
               :: map task_row (order_by_created_at_desc (mine Toy.userA Toy.db3)))
    /\ get "tasks" (res_json (fst (listTasks Toy.db3 Toy.userA)))
       = JArr (map task_row (order_by_created_at_desc (mine Toy.userA Toy.db3))).
Proof.
  apply (new_task_is_listed_first Toy.db3 Toy.userA (Toy.body_task "water plants") 105).
  - reflexivity.
  - vm_compute. constructor; [reflexivity|constructor].
Defined.

Lemma login_requires_matching_password_witness :
  (exists u,
      In u (users Toy.db3) /\ u_email u = "a@x.com"
      /\ Toy.bcrypt_compare "p1" (u_password u) = true)
  /\ get "token" (res_json (fst (login Toy.bcrypt_compare Toy.jwt_encode Toy.db3
                                       (Toy.body_login "a@x.com" "wrong") 103)))
     = JUndefined.
Proof.
  split.
  - destruct (proj1 (login_requires_matching_password
                       Toy.bcrypt_compare Toy.jwt_encode Toy.db3
                       (Toy.body_login "a@x.com" "p1") 103) eq_refl)
      as (u & Hin & He & Hc & _).
    exists u. repeat split; assumption.
  - refine (proj1 (proj2 (login_requires_matching_password
                            Toy.bcrypt_compare Toy.jwt_encode Toy.db3
                            (Toy.body_login "a@x.com" "wrong") 103) _)).
    vm_compute. discriminate.
Defined.

Lemma users_are_never_removed_witness :
  exists u',
    In u' (users (Toy.run Toy.db3 Toy.rename))
    /\ u_id u' = 1 /\ u_password u' = "$p1" /\ u_created_at u' = 100.
Proof.
  apply (users_are_never_removed
           Toy.bcrypt_hash Toy.bcrypt_compare Toy.jwt_encode Toy.jwt_decode
           Toy.text_as_integer Toy.rename Toy.db3 Toy.rowA).
  vm_compute. left. reflexivity.
Defined.

Lemma only_own_tasks_are_read_or_removed_witness :
  exists t,
    In t (tasks Toy.db3) /\ t_user_id t = c_id Toy.userA
    /\ res_json (fst (getTask Toy.text_as_integer Toy.db3 Toy.userA "1"))
       = JObj [("task", task_row t)].
Proof.
  destruct (proj1 (only_own_tasks_are_read_or_removed
                     Toy.text_as_integer Toy.db3 Toy.userA "1") eq_refl)
    as (t & Hin & Huser & _ & Hres).
  exists t. repeat split; assumption.
Defined.

Lemma login_follows_email_change_witness :
  res_status (fst (login Toy.bcrypt_compare Toy.jwt_encode
                         (snd (updateProfile Toy.db3 Toy.userA (Toy.body_email "ann@x.com")))
                         (Toy.body_login "ann@x.com" "p1") 105)) = 200
  /\ login Toy.bcrypt_compare Toy.jwt_encode
           (snd (updateProfile Toy.db3 Toy.userA (Toy.body_email "ann@x.com")))
           (Toy.body_login "a@x.com" "p1") 105
     = (error 401 "Invalid credentials",
        snd (updateProfile Toy.db3 Toy.userA (Toy.body_email "ann@x.com"))).
Proof.
  assert (Hnew : text (email (Toy.body_email "ann@x.com")) <> u_email Toy.rowA)
    by (vm_compute; discriminate).
  assert (Hold : u_email Toy.rowA <> "") by (vm_compute; discriminate).
  destruct (login_follows_email_change
              Toy.bcrypt_compare Toy.jwt_encode Toy.db3 Toy.userA
              (Toy.body_email "ann@x.com") (Toy.body_login "ann@x.com" "p1")
              (Toy.body_login "a@x.com" "p1") Toy.rowA 105
              toy_db3_wf toy_db3_emails eq_refl eq_refl Hnew eq_refl eq_refl eq_refl
              eq_refl eq_refl eq_refl Hold)
    as [[H200 _] H401].
  split; assumption.
Defined.

(** ** Instances for passwords of other types *)

Lemma string_signup_then_login_witness :
  exists id token1 token2 db',
    signup_json Toy.bcrypt_hash Toy.jwt_encode empty_db
                (Toy.body_account "a@x.com" "A") (VStr "p1") "salt1" 100
    = ({| res_status := 201;
          res_json :=
            JObj [("message", JStr "User created successfully");
                  ("token", JStr token1);
                  ("user", JObj [("id", JNum id); ("email", JStr "a@x.com");
                                 ("name", JStr "A")])] |}, db')
    /\ login_json Toy.bcrypt_compare Toy.jwt_encode db'
                  (Toy.body_email "a@x.com") (VStr "p1") 101
       = ({| res_status := 200;
             res_json :=
               JObj [("message", JStr "Login successful");
                     ("token", JStr token2);
                     ("user", JObj [("id", JNum id); ("email", JStr "a@x.com");
                                    ("name", JStr "A")])] |}, db')
    /\ jwt_verify Toy.jwt_decode token2 JWT_SECRET 102
       = Some {| c_id := id; c_email := "a@x.com";
                 c_iat := 101; c_exp := 101 + expiresIn_24h |}.
Proof.
  apply (string_signup_then_login
           Toy.bcrypt_hash Toy.bcrypt_compare Toy.jwt_encode Toy.jwt_decode
           toy_bcrypt_compare_hash toy_jwt_decode_encode
           empty_db (Toy.body_account "a@x.com" "A") (Toy.body_email "a@x.com")
           (VStr "p1") "salt1" 100 101 102);
    try reflexivity.
  vm_compute. split; [discriminate|reflexivity].
Defined.

(** C6 as worded fails: a JSON number for a password passes the check of
    signup, the e-mail is free, and the answer is 500 'Server error' with no
    user created. *)
Lemma number_password_is_a_server_error :
  truthy (email (Toy.body_account "a@x.com" "A")) = true
  /\ truthy_value Toy.number_12345 = true
  /\ truthy (name (Toy.body_account "a@x.com" "A")) = true
  /\ email_taken "a@x.com" (users empty_db) = false
  /\ signup_json Toy.bcrypt_hash Toy.jwt_encode empty_db
                 (Toy.body_account "a@x.com" "A") Toy.number_12345 "salt1" 100
     = (error 500 "Server error", empty_db)
  /\ res_status (fst (signup_json Toy.bcrypt_hash Toy.jwt_encode empty_db
                                  (Toy.body_account "a@x.com" "A") Toy.number_12345
                                  "salt1" 100)) <> 201.
Proof.
  repeat split. vm_compute. discriminate.
Qed.

(** C3 as worded fails: with nothing in the environment the program starts,
    and the key it signs and verifies with is the literal of the source. *)
Lemma startup_without_a_secret :
  start (fun _ => None) <> None
  /\ start (fun _ => None)
     = Some {| srv_secret := "your-secret-key-change-in-production";
               srv_port := 3000; srv_db := empty_db |}
  /\ JWT_SECRET = "your-secret-key-change-in-production".
Proof.
  repeat split. discriminate.
Qed.

Lemma required_text_fields_stay_nonempty_witness :
  nonempty_fields
    (run_json Toy.bcrypt_hash Toy.bcrypt_compare Toy.jwt_encode Toy.jwt_decode
              Toy.text_as_integer empty_db Toy.json_scenario).
Proof.
  apply (required_text_fields_stay_nonempty
           Toy.bcrypt_hash Toy.bcrypt_compare Toy.jwt_encode Toy.jwt_decode
           Toy.text_as_integer Toy.json_scenario empty_db).
  split; constructor.
Defined.

Lemma repeated_email_signup_adds_nothing_witness :
  signup_json Toy.bcrypt_hash Toy.jwt_encode
              (snd (signup_json Toy.bcrypt_hash Toy.jwt_encode empty_db
                                (Toy.body_account "a@x.com" "A") (VStr "p1") "salt1" 100))
              (Toy.body_account "a@x.com" "Eve") (VStr "other") "salt2" 101
  = (error 409 "Email already exists",
     snd (signup_json Toy.bcrypt_hash Toy.jwt_encode empty_db
                      (Toy.body_account "a@x.com" "A") (VStr "p1") "salt1" 100))
  /\ signup_json Toy.bcrypt_hash Toy.jwt_encode
                 (snd (signup_json Toy.bcrypt_hash Toy.jwt_encode empty_db
                                   (Toy.body_account "a@x.com" "A") (VStr "p1") "salt1" 100))
                 (Toy.body_account "a@x.com" "Eve") Toy.number_12345 "salt2" 101
     = (error 500 "Server error",
        snd (signup_json Toy.bcrypt_hash Toy.jwt_encode empty_db
                         (Toy.body_account "a@x.com" "A") (VStr "p1") "salt1" 100)).
Proof.
  split.
  - exact (repeated_email_signup_adds_nothing
             Toy.bcrypt_hash Toy.jwt_encode empty_db
             (Toy.body_account "a@x.com" "A") (Toy.body_account "a@x.com" "Eve")
             (VStr "p1") (VStr "other") "salt1" "salt2" 100 101
             eq_refl eq_refl eq_refl).
  - exact (repeated_email_signup_adds_nothing
             Toy.bcrypt_hash Toy.jwt_encode empty_db
             (Toy.body_account "a@x.com" "A") (Toy.body_account "a@x.com" "Eve")
             (VStr "p1") Toy.number_12345 "salt1" "salt2" 100 101
             eq_refl eq_refl eq_refl).
Defined.
